(** * carrito-gentech: the cart widget of [tienda/static/tienda/script.js]

    A shallow embedding of the storefront script: the price parser, the cart
    object, the summary renderer, the per-product button handlers, the
    checkout handler and the search filter, followed by the properties of
    the specification that concern them.

    Conventions.
    - A JavaScript number is an IEEE-754 binary64 value: [spec_float] with
      precision 53 and [emax] 1024, with the Standard Library's
      round-to-nearest-even operations.
    - A JavaScript string is a [string]; the script only inspects ASCII
      characters (digits, the comma), every other byte is treated alike.
    - The [cart] object is an association list in property-creation order:
      every key the script creates contains a ['-'], so no key is an array
      index or a property inherited from [Object.prototype], and
      enumeration order is insertion order.
    - [Intl.NumberFormat.prototype.format] and
      [String.prototype.toLowerCase] are host functions; they enter as
      section variables. *)

From Stdlib Require Import ZArith List String Ascii Bool Lia SpecFloat DecimalString.
Import ListNotations.

Local Open Scope string_scope.
Local Open Scope Z_scope.

(** ** JavaScript numbers *)

Module Num.

Definition number : Type := spec_float.

Definition prec : Z := 53.
Definition emax : Z := 1024.

Definition zero : number := S754_zero false.
Definition infinity : number := S754_infinity false.
Definition nan : number := S754_nan.

Definition add : number -> number -> number := SFadd prec emax.
Definition mul : number -> number -> number := SFmul prec emax.
Definition opp : number -> number := SFopp.

(** [x === y] on numbers. *)
Definition strict_eq (x y : number) : bool := SFeqb x y.

(** The global [isNaN] on a number. *)
Definition isNaN (x : number) : bool :=
  match x with
  | S754_nan => true
  | _ => false
  end.

(** The number nearest to the integer [z]. *)
Definition of_Z (z : Z) : number := binary_normalize prec emax z 0 false.

(** The number nearest to [n * 10 ^ e10] for a natural [n]: the value of a
    decimal literal whose digits read [n] and whose decimal point sits
    [- e10] places from the right. *)
Definition of_decimal (n : Z) (e10 : Z) : number :=
  match n with
  | Zpos p =>
      match e10 with
      | Zneg k =>
          SFdiv prec emax (S754_finite false p 0)
                (S754_finite false (10 ^ k)%positive 0)
      | _ => binary_normalize prec emax (n * 10 ^ e10) 0 false
      end
  | _ => zero
  end.

(** Number-to-string conversion of an integer below [10 ^ 21]. *)
Definition to_string_int (z : Z) : string :=
  NilZero.string_of_int (Z.to_int z).

End Num.

Abbreviation number := Num.number.

(** ** Strings *)

Module Str.

Definition is_digit (c : ascii) : bool :=
  let n := N_of_ascii c in
  (N.leb 48 n && N.leb n 57)%bool.

Definition digit_value (c : ascii) : Z := Z.of_N (N_of_ascii c) - 48.

(** Tab, line feed, vertical tab, form feed, carriage return, space. *)
Definition is_space (c : ascii) : bool :=
  let n := N_of_ascii c in
  ((N.leb 9 n && N.leb n 13) || N.eqb n 32)%bool.

Fixpoint filter (keep : ascii -> bool) (s : string) : string :=
  match s with
  | EmptyString => EmptyString
  | String c r => if keep c then String c (filter keep r) else filter keep r
  end.

(** [s.replace(pat, rep)] for a one-character string pattern: only the
    first occurrence is replaced. *)
Fixpoint replace_first (pat : ascii) (rep : string) (s : string) : string :=
  match s with
  | EmptyString => EmptyString
  | String c r =>
      if Ascii.eqb c pat then rep ++ r else String c (replace_first pat rep r)
  end.

(** Longest prefix of decimal digits, and what follows it. *)
Fixpoint span_digits (s : string) : string * string :=
  match s with
  | EmptyString => (EmptyString, EmptyString)
  | String c r =>
      if is_digit c
      then let '(ds, rest) := span_digits r in (String c ds, rest)
      else (EmptyString, s)
  end.

(** Value of a digit string read in base ten, continuing from [acc]. *)
Fixpoint digits_value (acc : Z) (ds : string) : Z :=
  match ds with
  | EmptyString => acc
  | String c r => digits_value (10 * acc + digit_value c) r
  end.

Fixpoint trim_start (s : string) : string :=
  match s with
  | EmptyString => EmptyString
  | String c r => if is_space c then trim_start r else s
  end.

(** [s.includes(t)]. *)
Fixpoint includes (s t : string) : bool :=
  (prefix t s
   || match s with
      | EmptyString => false
      | String _ r => includes r t
      end)%bool.

Definition is_empty (s : string) : bool :=
  match s with
  | EmptyString => true
  | String _ _ => false
  end.

Fixpoint count (c : ascii) (s : string) : nat :=
  match s with
  | EmptyString => O
  | String d r => if Ascii.eqb d c then S (count c r) else count c r
  end.

Fixpoint all (p : ascii -> bool) (s : string) : bool :=
  match s with
  | EmptyString => true
  | String c r => (p c && all p r)%bool
  end.

End Str.

(** ** The global [parseFloat]

    [parseFloat] skips leading white space and converts the longest prefix
    that is a decimal literal: an optional sign, then [Infinity], or digits
    with an optional fraction and an optional exponent.  Without such a
    prefix the result is [NaN].  The literal's value is rounded to the
    nearest number, ties to even, as the engines do for any number of
    digits.  Of the white space characters only the ASCII ones are
    recognised; [parsePrice] hands over digits, commas and one point. *)

Module ParseFloat.

(** The exponent part at the head of [s], 0 when there is none. *)
Definition exponent (s : string) : Z :=
  match s with
  | String c r =>
      if (Ascii.eqb c "e" || Ascii.eqb c "E")%bool then
        let '(neg, r') :=
          match r with
          | String d t =>
              if Ascii.eqb d "-" then (true, t)
              else if Ascii.eqb d "+" then (false, t)
              else (false, r)
          | EmptyString => (false, r)
          end in
        let '(ds, _) := Str.span_digits r' in
        if Str.is_empty ds then 0
        else if neg then - Str.digits_value 0 ds else Str.digits_value 0 ds
      else 0
  | EmptyString => 0
  end.

(** What follows a decimal point at the head of [s], if there is one. *)
Definition after_point (s : string) : option string :=
  match s with
  | String c r => if Ascii.eqb c "." then Some r else None
  | EmptyString => None
  end.

Definition unsigned (s : string) : number :=
  if prefix "Infinity" s then Num.infinity
  else
    let '(ip, r1) := Str.span_digits s in
    match after_point r1 with
    | Some r2 =>
        let '(fp, r3) := Str.span_digits r2 in
        if (Str.is_empty ip && Str.is_empty fp)%bool then Num.nan
        else Num.of_decimal (Str.digits_value 0 (ip ++ fp))
                            (exponent r3 - Z.of_nat (String.length fp))
    | None =>
        if Str.is_empty ip then Num.nan
        else Num.of_decimal (Str.digits_value 0 ip) (exponent r1)
    end.

Definition parseFloat (s : string) : number :=
  let t := Str.trim_start s in
  match t with
  | String c r =>
      if Ascii.eqb c "-" then Num.opp (unsigned r)
      else if Ascii.eqb c "+" then unsigned r
      else unsigned t
  | EmptyString => unsigned t
  end.

End ParseFloat.

(** ** [parsePrice] (script.js, lines 18-29) *)

(** What [parsePrice] can be handed: [item.dataset.precio] is a string or
    [undefined]; [null] is the other absent value. *)
Inductive PriceArg : Type :=
| Undefined
| Null
| Text (s : string).

(** [[^\d,]] negated: the characters the cleaning keeps. *)
Definition digit_or_comma (c : ascii) : bool :=
  (Str.is_digit c || Ascii.eqb c ",")%bool.

Definition cleanedPrice (priceString : string) : string :=
  Str.filter digit_or_comma priceString.

Definition finalPrice (priceString : string) : string :=
  Str.replace_first "," "." (cleanedPrice priceString).

Definition parsePrice (priceString : PriceArg) : number :=
  match priceString with
  | Undefined | Null => Num.zero
  | Text s =>
      if Str.is_empty s then Num.zero
      else
        let parsedPrice := ParseFloat.parseFloat (finalPrice s) in
        if Num.isNaN parsedPrice then Num.zero else parsedPrice
  end.

(** ** The cart object (script.js, line 10)

    [quantity] is a JavaScript number that the script only moves by whole
    steps from 0, so it is an integer between 0 and [2 ^ 53]; it is kept as
    that integer.  [price] is whatever [parsePrice] returned at bind time. *)

Record CartLine : Type := {
  name : string;
  price : number;
  presentation : string;
  content : string;
  quantity : Z
}.

Definition Cart : Type := list (string * CartLine).

Module CartObj.

(** [cart[k]]: [None] is [undefined]. *)
Fixpoint get (k : string) (c : Cart) : option CartLine :=
  match c with
  | [] => None
  | (k', v) :: r => if String.eqb k' k then Some v else get k r
  end.

(** [cart[k] = v]: an existing property keeps its place, a new one goes
    last. *)
Fixpoint set (k : string) (v : CartLine) (c : Cart) : Cart :=
  match c with
  | [] => [(k, v)]
  | (k', v') :: r =>
      if String.eqb k' k then (k', v) :: r else (k', v') :: set k v r
  end.

(** In-place update of the object stored under [k]. *)
Fixpoint modify (k : string) (f : CartLine -> CartLine) (c : Cart) : Cart :=
  match c with
  | [] => []
  | (k', v) :: r =>
      if String.eqb k' k then (k', f v) :: r else (k', v) :: modify k f r
  end.

(** [delete cart[k]]. *)
Fixpoint delete (k : string) (c : Cart) : Cart :=
  match c with
  | [] => []
  | (k', v) :: r =>
      if String.eqb k' k then r else (k', v) :: delete k r
  end.

(** [Object.keys(cart)]. *)
Definition keys (c : Cart) : list string := map fst c.

End CartObj.

(** [q + 1] on numbers: exact below [2 ^ 53], where the sum is a tie that
    rounds back to the even neighbour [2 ^ 53]. *)
Definition quantity_succ (q : Z) : Z :=
  if q <? 2 ^ 53 then q + 1 else q.

Definition increment (line : CartLine) : CartLine :=
  {| name := name line; price := price line;
     presentation := presentation line; content := content line;
     quantity := quantity_succ (quantity line) |}.

Definition decrement (line : CartLine) : CartLine :=
  {| name := name line; price := price line;
     presentation := presentation line; content := content line;
     quantity := quantity line - 1 |}.

(** ** The page *)

(** The [data-*] attributes of a [.product-item]; the markup supplies
    [data-id] and [data-nombre] on every product, the others may be
    missing. *)
Record Dataset : Type := {
  data_id : string;
  data_nombre : string;
  data_presentacion : option string;
  data_contenido : option string;
  data_precio : option string
}.

(** A [.product-item]: its attributes, the text of its
    [.quantity-display], and whether its class list holds ['hidden']. *)
Record ProductItem : Type := {
  dataset : Dataset;
  quantityDisplay : string;
  hidden : bool
}.

(** A child of [#summary-list]: the placeholder paragraph, or a
    [.summary-item] with the text of its two spans. *)
Inductive SummaryNode : Type :=
| EmptyMessage (text : string)
| SummaryItem (label amount : string).

Record Page : Type := {
  productItems : list ProductItem;
  cart : Cart;
  summaryList : list SummaryNode;
  summaryTotal : string;          (* textContent of #summary-total *)
  summaryTotal_empty : bool;      (* class 'empty' on #summary-total *)
  checkoutDisabled : bool;        (* checkoutButton.disabled *)
  alerts : list string            (* messages shown by alert, oldest first *)
}.

(** The constants of one pass of [productItems.forEach] (lines 92-99).  The
    script never writes a [data-*] attribute, so the handlers below compute
    them from the item when they run. *)
Record Binding : Type := {
  b_name : string;
  b_presentation : string;
  b_content : string;
  b_price : number;
  uniqueKey : string
}.

(** [x ?? ''] *)
Definition or_empty (x : option string) : string :=
  match x with
  | Some s => s
  | None => ""
  end.

Definition price_arg (x : option string) : PriceArg :=
  match x with
  | Some s => Text s
  | None => Undefined
  end.

Definition bind (d : Dataset) : Binding :=
  let presentation := or_empty (data_presentacion d) in
  {| b_name := data_nombre d;
     b_presentation := presentation;
     b_content := or_empty (data_contenido d);
     b_price := parsePrice (price_arg (data_precio d));
     uniqueKey := data_id d ++ "-" ++ presentation |}.

(** [{ name, price, presentation, content, quantity: 0 }] *)
Definition new_line (b : Binding) : CartLine :=
  {| name := b_name b; price := b_price b;
     presentation := b_presentation b; content := b_content b;
     quantity := 0 |}.

Definition set_quantityDisplay (text : string) (item : ProductItem) : ProductItem :=
  {| dataset := dataset item; quantityDisplay := text; hidden := hidden item |}.

Definition set_hidden (h : bool) (item : ProductItem) : ProductItem :=
  {| dataset := dataset item; quantityDisplay := quantityDisplay item; hidden := h |}.

(** Apply [f] to the [i]-th element. *)
Fixpoint update_nth {A : Type} (i : nat) (f : A -> A) (l : list A) : list A :=
  match l, i with
  | [], _ => []
  | x :: r, O => f x :: r
  | x :: r, S j => x :: update_nth j f r
  end.

Definition empty_message : string :=
  "Tu carrito está vacío. ¡Agrega productos para comenzar! 🛒".

(** What one run of [updateSummary] leaves behind: the children of the
    list, the total's text, the button's [disabled], and the final value of
    the local [total]. *)
Record Rendered : Type := {
  r_list : list SummaryNode;
  r_text : string;
  r_disabled : bool;
  r_total : number
}.

(** The user's actions. *)
Inductive Event : Type :=
| ClickAdd (i : nat)
| ClickRemove (i : nat)
| ClickCheckout
| InputSearch (value : string).

Section Handlers.

(** [formatter.format] of the [es-AR] / [ARS] formatter. *)
Variable format : number -> string.
Variable toLowerCase : string -> string.

Definition itemTotal (item : CartLine) : number :=
  Num.mul (price item) (Num.of_Z (quantity item)).

Definition summaryItem (item : CartLine) : SummaryNode :=
  let presentationText :=
    if Str.is_empty (presentation item) then ""
    else " (" ++ presentation item ++ ")" in
  let contentText :=
    if Str.is_empty (content item) then ""
    else " - " ++ content item in
  SummaryItem
    (name item ++ presentationText ++ contentText
       ++ " (" ++ Num.to_string_int (quantity item) ++ ")")
    (format (itemTotal item)).

(** The [for (const key in cart)] loop (lines 54-68), on the pair of the
    running [total] and the children appended so far. *)
Definition summary_loop (c : Cart) (start : number * list SummaryNode)
  : number * list SummaryNode :=
  fold_left
    (fun (acc : number * list SummaryNode) (entry : string * CartLine) =>
       let item := snd entry in
       (Num.add (fst acc) (itemTotal item),
        (snd acc ++ [summaryItem item])%list))
    c start.

(** [cartKeys.length === 0] *)
Definition isEmpty (c : Cart) : bool :=
  let cartKeys := CartObj.keys c in
  Nat.eqb (List.length cartKeys) 0.

Definition render (c : Cart) : Rendered :=
  let total := Num.zero in
  if isEmpty c then
    {| r_list := [EmptyMessage empty_message];
       r_text := "Total: $0.00";
       r_disabled := true;
       r_total := total |}
  else
    let '(total, children) := summary_loop c (total, []) in
    {| r_list := children;
       r_text := "Total: " ++ format total;
       r_disabled := false;
       r_total := total |}.

(** [updateSummary] (lines 35-75). *)
Definition updateSummary (pg : Page) : Page :=
  let r := render (cart pg) in
  {| productItems := productItems pg;
     cart := cart pg;
     summaryList := r_list r;
     summaryTotal := r_text r;
     summaryTotal_empty := Num.strict_eq (r_total r) Num.zero;
     checkoutDisabled := r_disabled r;
     alerts := alerts pg |}.

Definition with_cart (c : Cart) (items : list ProductItem) (pg : Page) : Page :=
  {| productItems := items;
     cart := c;
     summaryList := summaryList pg;
     summaryTotal := summaryTotal pg;
     summaryTotal_empty := summaryTotal_empty pg;
     checkoutDisabled := checkoutDisabled pg;
     alerts := alerts pg |}.

Definition alert (msg : string) (pg : Page) : Page :=
  {| productItems := productItems pg;
     cart := cart pg;
     summaryList := summaryList pg;
     summaryTotal := summaryTotal pg;
     summaryTotal_empty := summaryTotal_empty pg;
     checkoutDisabled := checkoutDisabled pg;
     alerts := (alerts pg ++ [msg])%list |}.

(** The checkout button's click handler (lines 78-88). *)
Definition checkoutButton_click (pg : Page) : Page :=
  let pg1 := alert ("¡Compra finalizada! Total: " ++ summaryTotal pg) pg in
  let emptied :=
    fold_left (fun c key => CartObj.delete key c)
              (CartObj.keys (cart pg1)) (cart pg1) in
  let pg2 := updateSummary (with_cart emptied (productItems pg1) pg1) in
  with_cart (cart pg2)
            (map (set_quantityDisplay "0") (productItems pg2)) pg2.

(** The add button of the [i]-th product (lines 105-113). *)
Definition addButton_click (i : nat) (pg : Page) : Page :=
  match nth_error (productItems pg) i with
  | None => pg
  | Some item =>
      let b := bind (dataset item) in
      let cart1 :=
        match CartObj.get (uniqueKey b) (cart pg) with
        | None => CartObj.set (uniqueKey b) (new_line b) (cart pg)
        | Some _ => cart pg
        end in
      let cart2 := CartObj.modify (uniqueKey b) increment cart1 in
      match CartObj.get (uniqueKey b) cart2 with
      | None => pg (* the property was created just above *)
      | Some line =>
          let shown := Num.to_string_int (quantity line) in
          updateSummary
            (with_cart cart2
               (update_nth i (set_quantityDisplay shown) (productItems pg))
               pg)
      end
  end.

(** The remove button of the [i]-th product (lines 115-126). *)
Definition removeButton_click (i : nat) (pg : Page) : Page :=
  match nth_error (productItems pg) i with
  | None => pg
  | Some item =>
      let b := bind (dataset item) in
      match CartObj.get (uniqueKey b) (cart pg) with
      | None => pg
      | Some line =>
          if 0 <? quantity line then
            let cart1 := CartObj.modify (uniqueKey b) decrement (cart pg) in
            let cart2 :=
              match CartObj.get (uniqueKey b) cart1 with
              | Some line1 =>
                  if quantity line1 =? 0
                  then CartObj.delete (uniqueKey b) cart1
                  else cart1
              | None => cart1 (* the line was found just above *)
              end in
            let shown :=
              match CartObj.get (uniqueKey b) cart2 with
              | Some line2 => Num.to_string_int (quantity line2)
              | None => "0"
              end in
            updateSummary
              (with_cart cart2
                 (update_nth i (set_quantityDisplay shown) (productItems pg))
                 pg)
          else pg
      end
  end.

(** The search box's input handler (lines 130-141). *)
Definition searchInput_input (value : string) (pg : Page) : Page :=
  let searchTerm := toLowerCase value in
  with_cart (cart pg)
    (map (fun item =>
            let productName := toLowerCase (data_nombre (dataset item)) in
            if Str.includes productName searchTerm
            then set_hidden false item
            else set_hidden true item)
         (productItems pg))
    pg.

(** One user action.  A disabled button dispatches no click. *)
Definition step (pg : Page) (ev : Event) : Page :=
  match ev with
  | ClickAdd i => addButton_click i pg
  | ClickRemove i => removeButton_click i pg
  | ClickCheckout =>
      if checkoutDisabled pg then pg else checkoutButton_click pg
  | InputSearch value => searchInput_input value pg
  end.

Definition run (evs : list Event) (pg : Page) : Page :=
  fold_left step evs pg.

End Handlers.

(** The page when the script starts: the markup decides everything but the
    cart, which is the empty object. *)
Definition initial (pg : Page) : Prop := cart pg = [].

(** Lower-casing of the ASCII letters, for concrete runs. *)
Definition ascii_lower (c : ascii) : ascii :=
  let n := N_of_ascii c in
  if (N.leb 65 n && N.leb n 90)%bool then ascii_of_N (n + 32) else c.

Fixpoint lower_ascii (s : string) : string :=
  match s with
  | EmptyString => EmptyString
  | String c r => String (ascii_lower c) (lower_ascii r)
  end.

(** A stand-in formatter for concrete runs: a tag per float class. *)
Definition format_tag (x : number) : string :=
  match x with
  | S754_zero _ => "zero"
  | S754_finite _ _ _ => "finite"
  | S754_infinity _ => "infinite"
  | S754_nan => "NaN"
  end.

(** A catalog of three products for concrete runs, as the page is when the
    script starts. *)
Definition sample_item (id nombre : string) (pres : option string) (precio : string) : ProductItem :=
  {| dataset := {| data_id := id; data_nombre := nombre; data_presentacion := pres;
                   data_contenido := None; data_precio := Some precio |};
     quantityDisplay := "0"; hidden := false |}.

Definition sample_page : Page :=
  {| productItems := [sample_item "7" "Chocolate" (Some "500g") "$1.234,50";
                      sample_item "7" "Chocolate" (Some "1kg") "$2.000,00";
                      sample_item "9" "Leche" None "0,10"];
     cart := [];
     summaryList := [];
     summaryTotal := "";
     summaryTotal_empty := false;
     checkoutDisabled := true;
     alerts := [] |}.

(** A run on it that ends with one line of quantity 2 in the cart. *)
Definition sample_events : list Event :=
  [ClickAdd 0; ClickAdd 2; ClickAdd 0; ClickRemove 2; InputSearch "CHOCO"].

(** ** Vocabulary of the properties *)

Definition digits_of (s : string) : string := Str.filter Str.is_digit s.

Fixpoint before_comma (s : string) : string :=
  match s with
  | EmptyString => EmptyString
  | String c r => if Ascii.eqb c "," then EmptyString else String c (before_comma r)
  end.

Fixpoint after_comma (s : string) : string :=
  match s with
  | EmptyString => EmptyString
  | String c r => if Ascii.eqb c "," then r else after_comma r
  end.

(** The number a price text denotes: separators are dropped, the digits
    before the decimal comma are the integer part, the digits after it the
    fraction, and the value is the nearest number. *)
Definition denoted (s : string) : number :=
  let fraction := digits_of (after_comma s) in
  Num.of_decimal
    (Str.digits_value 0 (digits_of (before_comma s) ++ fraction))
    (- Z.of_nat (String.length fraction)).

(** What may follow the digits of a number: nothing, or a character that
    is not a digit. *)
Definition no_digit_ahead (s : string) : bool :=
  match s with
  | EmptyString => true
  | String c _ => negb (Str.is_digit c)
  end.

(** Nothing, or a comma, ends the number. *)
Definition comma_or_end (s : string) : bool :=
  match s with
  | EmptyString => true
  | String c _ => Ascii.eqb c ","
  end.

(** Every stored line has quantity at least 1. *)
Definition positive_quantities (c : Cart) : Prop :=
  Forall (fun entry : string * CartLine => 1 <= quantity (snd entry)) c.

(** The sum of price times quantity over the entries, taken in enumeration
    order from 0 with the addition and multiplication of numbers. *)
Definition cart_sum (c : Cart) : number :=
  fold_left Num.add
    (map (fun entry : string * CartLine =>
            Num.mul (price (snd entry)) (Num.of_Z (quantity (snd entry))))
         c)
    Num.zero.

(** The key has no line, or a line whose quantity is not above 0. *)
Definition absent_or_zero (k : string) (c : Cart) : bool :=
  match CartObj.get k c with
  | None => true
  | Some line => quantity line <=? 0
  end.

(** The cart the add handler leaves, written out. *)
Definition cart_after_add (b : Binding) (c : Cart) : Cart :=
  CartObj.modify (uniqueKey b) increment
    match CartObj.get (uniqueKey b) c with
    | None => CartObj.set (uniqueKey b) (new_line b) c
    | Some _ => c
    end.

(** The cart the remove handler leaves when it acts. *)
Definition cart_after_remove (k : string) (c : Cart) : Cart :=
  let cart1 := CartObj.modify k decrement c in
  match CartObj.get k cart1 with
  | Some line1 => if quantity line1 =? 0 then CartObj.delete k cart1 else cart1
  | None => cart1
  end.

(** The summary region shows what [render] makes of the current cart. *)
Definition fresh (format : number -> string) (pg : Page) : Prop :=
  summaryList pg = r_list (render format (cart pg))
  /\ summaryTotal pg = r_text (render format (cart pg))
  /\ checkoutDisabled pg = r_disabled (render format (cart pg))
  /\ summaryTotal_empty pg
     = Num.strict_eq (r_total (render format (cart pg))) Num.zero.

(** The summary region, as far as the script writes it. *)
Definition summary_of (pg : Page)
  : list SummaryNode * string * bool * bool :=
  (summaryList pg, summaryTotal pg, summaryTotal_empty pg, checkoutDisabled pg).

(** ** Vocabulary of the further properties *)

(** The composite key of a product. *)
Definition key_of (item : ProductItem) : string :=
  uniqueKey (bind (dataset item)).

(** The quantity the cart holds for a key, 0 when it holds no line. *)
Definition quantity_in (k : string) (c : Cart) : Z :=
  match CartObj.get k c with
  | Some line => quantity line
  | None => 0
  end.

(** Plus zero, a positive finite number or plus infinity: neither [NaN] nor
    anything with the sign bit set. *)
Definition nonneg (x : number) : bool :=
  match x with
  | S754_zero false | S754_finite false _ _ | S754_infinity false => true
  | _ => false
  end.

(** A positive finite number. *)
Definition positive_finite (x : number) : bool :=
  match x with
  | S754_finite false _ _ => true
  | _ => false
  end.

(** The line stored under [k] carries what the product with attributes [d]
    was bound to. *)
Definition line_of (d : Dataset) (k : string) (line : CartLine) : Prop :=
  k = uniqueKey (bind d)
  /\ name line = b_name (bind d)
  /\ price line = b_price (bind d)
  /\ presentation line = b_presentation (bind d)
  /\ content line = b_content (bind d).

(** Every quantity indicator shows the quantity the cart holds for its
    product. *)
Definition displays_agree (pg : Page) : Prop :=
  forall (j : nat) (item : ProductItem),
    nth_error (productItems pg) j = Some item ->
    quantityDisplay item
    = Num.to_string_int (quantity_in (key_of item) (cart pg)).

(** Quantities between 1 and [2 ^ 53], prices that are no [NaN] and not
    negative. *)
Definition sound_line (line : CartLine) : Prop :=
  1 <= quantity line <= 2 ^ 53 /\ nonneg (price line) = true.

(** The cart a user action leaves, given the page it acts on. *)
Definition next_cart (pg : Page) (ev : Event) : Cart :=
  match ev with
  | ClickAdd i =>
      match nth_error (productItems pg) i with
      | Some item => cart_after_add (bind (dataset item)) (cart pg)
      | None => cart pg
      end
  | ClickRemove i =>
      match nth_error (productItems pg) i with
      | Some item =>
          if absent_or_zero (key_of item) (cart pg) then cart pg
          else cart_after_remove (key_of item) (cart pg)
      | None => cart pg
      end
  | ClickCheckout => if checkoutDisabled pg then cart pg else []
  | InputSearch _ => cart pg
  end.

(** Every line of the cart carries the data of a product of the catalog. *)
Definition lines_from (ds : list Dataset) (c : Cart) : Prop :=
  Forall (fun entry : string * CartLine =>
            exists d, In d ds /\ line_of d (fst entry) (snd entry)) c.

Definition sound_cart (c : Cart) : Prop :=
  Forall (fun entry : string * CartLine => sound_line (snd entry)) c.

(** * Properties *)

(** ** Numbers: no rounding of a non-negative mantissa yields [NaN] *)

Section NumberFacts.

Let prec := Num.prec.
Let emax := Num.emax.

Lemma shr_1_nonneg (mrs : shr_record) :
  0 <= shr_m mrs -> 0 <= shr_m (shr_1 mrs).
Proof.
  destruct mrs as [m r s]; simpl.
  destruct m as [|p|p]; simpl; try lia; destruct p; simpl; lia.
Qed.

Lemma iter_shr_1_nonneg (p : positive) (mrs : shr_record) :
  0 <= shr_m mrs -> 0 <= shr_m (iter_pos shr_1 p mrs).
Proof.
  revert mrs; induction p as [p IH|p IH|]; intros mrs H; simpl.
  - apply IH, IH, shr_1_nonneg, H.
  - apply IH, IH, H.
  - apply shr_1_nonneg, H.
Qed.

Lemma shr_record_of_loc_m (m : Z) (l : location) :
  shr_m (shr_record_of_loc m l) = m.
Proof. destruct l as [|[]]; reflexivity. Qed.

Lemma shr_fexp_nonneg (m e : Z) (l : location) :
  0 <= m -> 0 <= shr_m (fst (shr_fexp prec emax m e l)).
Proof.
  intros H; unfold shr_fexp, shr.
  destruct (fexp prec emax (Zdigits2 m + e) - e) as [|p|p]; simpl;
    rewrite ?shr_record_of_loc_m; auto.
  apply iter_shr_1_nonneg; rewrite shr_record_of_loc_m; exact H.
Qed.

Lemma round_nearest_even_nonneg (m : Z) (l : location) :
  0 <= m -> 0 <= round_nearest_even m l.
Proof.
  intros H; destruct l as [|[]]; simpl; try lia.
  destruct (Z.even m); lia.
Qed.

Lemma binary_round_aux_not_nan (sx : bool) (mx ex : Z) (lx : location) :
  0 <= mx -> Num.isNaN (binary_round_aux prec emax sx mx ex lx) = false.
Proof.
  intros H; unfold binary_round_aux.
  pose proof (shr_fexp_nonneg mx ex lx H) as H1.
  destruct (shr_fexp prec emax mx ex lx) as [mrs' e']; simpl in H1.
  pose proof (shr_fexp_nonneg _ e' loc_Exact
                (round_nearest_even_nonneg _ (loc_of_shr_record mrs') H1)) as H2.
  destruct (shr_fexp prec emax _ e' loc_Exact) as [mrs'' e'']; simpl in H2.
  destruct (shr_m mrs'') as [|m|m]; try reflexivity.
  - destruct (e'' <=? emax - prec); reflexivity.
  - lia.
Qed.

Lemma binary_normalize_not_nan (m e : Z) (szero : bool) :
  Num.isNaN (binary_normalize prec emax m e szero) = false.
Proof.
  destruct m as [|p|p]; simpl; try reflexivity; unfold binary_round;
    destruct (shl_align _ _ _) as [mz ez];
    apply binary_round_aux_not_nan; lia.
Qed.

Lemma of_decimal_not_nan (n e10 : Z) : Num.isNaN (Num.of_decimal n e10) = false.
Proof.
  unfold Num.of_decimal.
  destruct n as [|p|p]; try reflexivity.
  destruct e10 as [|k|k]; try apply binary_normalize_not_nan.
  unfold SFdiv, SFdiv_core_binary.
  set (m' := match _ with Z0 => _ | Zpos _ => _ | Zneg _ => _ end).
  assert (Hm : 0 <= m').
  { subst m'.
    destruct (_ - _ - _) as [|q|q]; try lia.
    apply Z.shiftl_nonneg; lia. }
  pose proof (Z.div_pos m' (Z.pos (10 ^ k)) Hm ltac:(lia)) as Hq.
  unfold Z.div in Hq.
  destruct (Z.div_eucl m' (Z.pos (10 ^ k))) as [q r]; simpl in Hq.
  apply binary_round_aux_not_nan; exact Hq.
Qed.

Lemma of_decimal_zero (e10 : Z) : Num.of_decimal 0 e10 = Num.zero.
Proof. reflexivity. Qed.

End NumberFacts.

(** ** Strings *)

Lemma append_assoc (a b c : string) : (a ++ b) ++ c = a ++ (b ++ c).
Proof. induction a as [|x a IH]; simpl; [reflexivity | now rewrite IH]. Qed.

Lemma append_empty_r (a : string) : a ++ "" = a.
Proof. induction a as [|x a IH]; simpl; [reflexivity | now rewrite IH]. Qed.

Lemma length_append (a b : string) :
  String.length (a ++ b) = (String.length a + String.length b)%nat.
Proof. induction a as [|x a IH]; simpl; [reflexivity | now rewrite IH]. Qed.

Lemma filter_append (f : ascii -> bool) (a b : string) :
  Str.filter f (a ++ b) = Str.filter f a ++ Str.filter f b.
Proof.
  induction a as [|x a IH]; simpl; [reflexivity|].
  destruct (f x); simpl; now rewrite IH.
Qed.

Lemma all_filter (f : ascii -> bool) (s : string) :
  Str.all f (Str.filter f s) = true.
Proof.
  induction s as [|x s IH]; simpl; [reflexivity|].
  destruct (f x) eqn:E; simpl; [rewrite E|]; exact IH.
Qed.

Lemma is_empty_append (a b : string) :
  Str.is_empty (a ++ b) = (Str.is_empty a && Str.is_empty b)%bool.
Proof. destruct a; reflexivity. Qed.

(** A digit is none of the other characters the parser looks for. *)
Lemma digit_differs (c x : ascii) :
  Str.is_digit c = true -> Str.is_digit x = false -> Ascii.eqb c x = false.
Proof.
  intros Hc Hx; destruct (Ascii.eqb c x) eqn:E; [|reflexivity].
  apply Ascii.eqb_eq in E; subst; congruence.
Qed.

Lemma digit_not_space (c : ascii) :
  Str.is_digit c = true -> Str.is_space c = false.
Proof.
  unfold Str.is_digit, Str.is_space; intros H.
  apply andb_true_iff in H as [H1 H2].
  apply N.leb_le in H1.
  replace (N_of_ascii c <=? 13)%N with false by (symmetry; apply N.leb_gt; lia).
  replace (N_of_ascii c =? 32)%N with false by (symmetry; apply N.eqb_neq; lia).
  now rewrite andb_false_r.
Qed.

Lemma filter_without_comma (s : string) :
  Str.count "," s = O ->
  Str.filter digit_or_comma s = Str.filter Str.is_digit s.
Proof.
  induction s as [|c s IH]; simpl; [reflexivity|]; intros H.
  unfold digit_or_comma at 1.
  destruct (Ascii.eqb c ",") eqn:E; [discriminate|].
  rewrite orb_false_r; destruct (Str.is_digit c); now rewrite IH.
Qed.

Lemma filter_digit_or_comma_digits (s : string) :
  Str.filter Str.is_digit (Str.filter digit_or_comma s) = Str.filter Str.is_digit s.
Proof.
  induction s as [|c s IH]; simpl; [reflexivity|].
  unfold digit_or_comma at 1.
  destruct (Str.is_digit c) eqn:D; simpl; [now rewrite D, IH|].
  destruct (Ascii.eqb c ","); simpl; [rewrite D|]; exact IH.
Qed.

Lemma replace_first_digits (ds : string) :
  Str.all Str.is_digit ds = true -> Str.replace_first "," "." ds = ds.
Proof.
  induction ds as [|c ds IH]; simpl; [reflexivity|]; intros H.
  apply andb_true_iff in H as [Hc Hds].
  rewrite (digit_differs c "," Hc eq_refl), IH; auto.
Qed.

Lemma replace_first_comma (ds rest : string) :
  Str.all Str.is_digit ds = true ->
  Str.replace_first "," "." (ds ++ String "," rest) = ds ++ String "." rest.
Proof.
  induction ds as [|c ds IH]; simpl; [reflexivity|]; intros H.
  apply andb_true_iff in H as [Hc Hds].
  rewrite (digit_differs c "," Hc eq_refl), IH; auto.
Qed.

Lemma span_digits_append (ds rest : string) :
  Str.all Str.is_digit ds = true -> no_digit_ahead rest = true ->
  Str.span_digits (ds ++ rest) = (ds, rest).
Proof.
  intros Hds Hrest; induction ds as [|c ds IH]; simpl.
  - destruct rest as [|c r]; [reflexivity|]; simpl in *.
    apply negb_true_iff in Hrest; now rewrite Hrest.
  - simpl in Hds; apply andb_true_iff in Hds as [Hc Hds].
    rewrite Hc, (IH Hds); reflexivity.
Qed.

Lemma span_digits_all (ds : string) :
  Str.all Str.is_digit ds = true -> Str.span_digits ds = (ds, "").
Proof.
  intros H; rewrite <- (append_empty_r ds) at 1.
  now apply span_digits_append.
Qed.

(** ** [parseFloat] on the texts [parsePrice] hands it *)

Lemma comma_or_end_no_digit (s : string) :
  comma_or_end s = true -> no_digit_ahead s = true.
Proof.
  destruct s as [|c r]; simpl; [reflexivity|]; intros H.
  apply Ascii.eqb_eq in H; subst; reflexivity.
Qed.

Lemma exponent_comma_or_end (s : string) :
  comma_or_end s = true -> ParseFloat.exponent s = 0.
Proof.
  destruct s as [|c r]; simpl; [reflexivity|]; intros H.
  apply Ascii.eqb_eq in H; subst; reflexivity.
Qed.

Lemma parseFloat_digit_head (c : ascii) (r : string) :
  Str.is_digit c = true ->
  ParseFloat.parseFloat (String c r) = ParseFloat.unsigned (String c r).
Proof.
  intros H; unfold ParseFloat.parseFloat; simpl.
  rewrite (digit_not_space c H).
  now rewrite (digit_differs c "-" H eq_refl), (digit_differs c "+" H eq_refl).
Qed.

Lemma prefix_Infinity_digit (c : ascii) (r : string) :
  Str.is_digit c = true -> prefix "Infinity" (String c r) = false.
Proof.
  intros H.
  change (prefix "Infinity" (String c r))
    with (if ascii_dec "I" c then prefix "nfinity" r else false).
  destruct (ascii_dec "I" c) as [E|E]; [subst; discriminate | reflexivity].
Qed.

(** Digits, a point, digits, and then the end or a comma. *)
Lemma parseFloat_point (ip fp tail : string) :
  Str.all Str.is_digit ip = true ->
  Str.all Str.is_digit fp = true ->
  comma_or_end tail = true ->
  ParseFloat.parseFloat (ip ++ String "." (fp ++ tail)) =
    if (Str.is_empty ip && Str.is_empty fp)%bool then Num.nan
    else Num.of_decimal (Str.digits_value 0 (ip ++ fp))
                        (- Z.of_nat (String.length fp)).
Proof.
  intros Hip Hfp Htail.
  assert (Hu : ParseFloat.unsigned (ip ++ String "." (fp ++ tail)) =
               if (Str.is_empty ip && Str.is_empty fp)%bool then Num.nan
               else Num.of_decimal (Str.digits_value 0 (ip ++ fp))
                                   (- Z.of_nat (String.length fp))).
  { unfold ParseFloat.unsigned.
    replace (prefix "Infinity" (ip ++ String "." (fp ++ tail))) with false.
    2:{ destruct ip as [|c ip]; [reflexivity|].
        simpl in Hip; apply andb_true_iff in Hip as [Hc _].
        symmetry; apply (prefix_Infinity_digit c _ Hc). }
    rewrite (span_digits_append ip (String "." (fp ++ tail)) Hip eq_refl).
    cbn [ParseFloat.after_point]; change (Ascii.eqb "." ".") with true; cbv iota.
    rewrite (span_digits_append fp tail Hfp (comma_or_end_no_digit _ Htail)).
    rewrite (exponent_comma_or_end _ Htail); reflexivity. }
  destruct ip as [|c ip]; [exact Hu|].
  simpl in Hip; apply andb_true_iff in Hip as [Hc _].
  simpl append; rewrite (parseFloat_digit_head c _ Hc); exact Hu.
Qed.

(** Digits and nothing else. *)
Lemma parseFloat_digits (ip : string) :
  Str.all Str.is_digit ip = true ->
  ParseFloat.parseFloat ip =
    if Str.is_empty ip then Num.nan
    else Num.of_decimal (Str.digits_value 0 ip) 0.
Proof.
  intros Hip; destruct ip as [|c ip]; [reflexivity|].
  pose proof Hip as Hall.
  simpl in Hip; apply andb_true_iff in Hip as [Hc _].
  rewrite (parseFloat_digit_head c _ Hc); unfold ParseFloat.unsigned.
  rewrite (prefix_Infinity_digit c _ Hc), (span_digits_all _ Hall); reflexivity.
Qed.

(** ** [parsePrice] by the shape of its input *)

Lemma finalPrice_without_comma (a : string) :
  Str.count "," a = O -> finalPrice a = digits_of a.
Proof.
  intros H; unfold finalPrice, cleanedPrice.
  rewrite (filter_without_comma a H).
  apply replace_first_digits, all_filter.
Qed.

Lemma finalPrice_with_comma (a r : string) :
  Str.count "," a = O ->
  finalPrice (a ++ String "," r) = digits_of a ++ String "." (cleanedPrice r).
Proof.
  intros H; unfold finalPrice, cleanedPrice.
  rewrite filter_append, (filter_without_comma a H); simpl.
  apply replace_first_comma, all_filter.
Qed.

Lemma nan_to_zero_of_decimal (n e10 : Z) :
  (if Num.isNaN (Num.of_decimal n e10) then Num.zero else Num.of_decimal n e10)
  = Num.of_decimal n e10.
Proof. now rewrite of_decimal_not_nan. Qed.

(** No comma at all: the digits are read as an integer. *)
Lemma parsePrice_without_comma (a : string) :
  Str.count "," a = O ->
  parsePrice (Text a) = Num.of_decimal (Str.digits_value 0 (digits_of a)) 0.
Proof.
  intros H; unfold parsePrice.
  destruct (Str.is_empty a) eqn:E.
  { destruct a; [reflexivity | discriminate]. }
  rewrite (finalPrice_without_comma a H).
  rewrite (parseFloat_digits (digits_of a) (all_filter _ a)).
  destruct (digits_of a) as [|c ds] eqn:D; [reflexivity|].
  cbn [Str.is_empty]; apply nan_to_zero_of_decimal.
Qed.

(** A first comma followed by a comma-free stretch [b], and then the end
    or a second comma: the digits of [b] are the fraction. *)
Lemma parsePrice_with_comma (a b tail : string) :
  Str.count "," a = O -> Str.count "," b = O -> comma_or_end tail = true ->
  parsePrice (Text (a ++ String "," (b ++ tail))) =
    Num.of_decimal (Str.digits_value 0 (digits_of a ++ digits_of b))
                   (- Z.of_nat (String.length (digits_of b))).
Proof.
  intros Ha Hb Htail; unfold parsePrice.
  destruct (Str.is_empty _) eqn:E.
  { destruct a; discriminate. }
  rewrite (finalPrice_with_comma a _ Ha).
  unfold cleanedPrice; rewrite filter_append, (filter_without_comma b Hb).
  fold (digits_of b).
  assert (Ht : comma_or_end (Str.filter digit_or_comma tail) = true).
  { destruct tail as [|c t]; [reflexivity|]; simpl in *.
    apply Ascii.eqb_eq in Htail; subst; reflexivity. }
  rewrite (parseFloat_point (digits_of a) (digits_of b) _
             (all_filter _ a) (all_filter _ b) Ht).
  destruct (Str.is_empty (digits_of a) && Str.is_empty (digits_of b))%bool eqn:B.
  - apply andb_true_iff in B as [Ba Bb].
    destruct (digits_of a); [|discriminate].
    destruct (digits_of b); [|discriminate]; reflexivity.
  - apply nan_to_zero_of_decimal.
Qed.

(** Every text splits at its first comma. *)
Lemma before_comma_count (s : string) : Str.count "," (before_comma s) = O.
Proof.
  induction s as [|c s IH]; simpl; [reflexivity|].
  destruct (Ascii.eqb c ",") eqn:E; simpl; [reflexivity | now rewrite E].
Qed.

Lemma split_at_comma (s : string) :
  (Str.count "," s = O /\ before_comma s = s /\ after_comma s = "")
  \/ (s = before_comma s ++ String "," (after_comma s)
      /\ Str.count "," s = S (Str.count "," (after_comma s))).
Proof.
  induction s as [|c s IH]; simpl; [left; auto|].
  destruct (Ascii.eqb c ",") eqn:E.
  - right; apply Ascii.eqb_eq in E; subst; auto.
  - destruct IH as [(H1 & H2 & H3)|(H1 & H2)].
    + left; rewrite H2; auto.
    + right; simpl; rewrite <- H1; auto.
Qed.

Lemma before_after_append (a r : string) :
  Str.count "," a = O ->
  before_comma (a ++ String "," r) = a /\ after_comma (a ++ String "," r) = r.
Proof.
  induction a as [|c a IH]; simpl; [auto|]; intros H.
  destruct (Ascii.eqb c ",") eqn:E; [discriminate|].
  destruct (IH H) as [H1 H2]; rewrite H1, H2; auto.
Qed.

(** What [parsePrice] reads in any text: the digits before the first comma
    as the integer part, the digits between the first and the second comma
    as the fraction. *)
Lemma parsePrice_reads (s : string) :
  parsePrice (Text s) =
    Num.of_decimal
      (Str.digits_value 0 (digits_of (before_comma s)
                             ++ digits_of (before_comma (after_comma s))))
      (- Z.of_nat (String.length (digits_of (before_comma (after_comma s))))).
Proof.
  destruct (split_at_comma s) as [(H1 & H2 & H3)|(H1 & _)].
  - rewrite H2, H3; simpl; rewrite append_empty_r.
    apply parsePrice_without_comma, H1.
  - set (r := after_comma s) in *.
    assert (Hr : exists tail, r = before_comma r ++ tail /\ comma_or_end tail = true).
    { destruct (split_at_comma r) as [(_ & H2 & _)|(H2 & _)].
      - exists ""; rewrite append_empty_r; auto.
      - exists (String "," (after_comma r)); auto. }
    destruct Hr as (tail & Hr & Htail).
    rewrite H1 at 1; rewrite Hr at 1.
    apply parsePrice_with_comma;
      auto using before_comma_count.
Qed.

(** ** The cart object *)

Lemma set_fresh (k : string) (v : CartLine) (c : Cart) :
  CartObj.get k c = None -> CartObj.set k v c = (c ++ [(k, v)])%list.
Proof.
  induction c as [|[k' v'] c IH]; simpl; [reflexivity|].
  destruct (String.eqb k' k); [discriminate|].
  intros H; now rewrite IH.
Qed.

Lemma modify_last (k : string) (f : CartLine -> CartLine) (v : CartLine) (c : Cart) :
  CartObj.get k c = None ->
  CartObj.modify k f (c ++ [(k, v)])%list = (c ++ [(k, f v)])%list.
Proof.
  induction c as [|[k' v'] c IH]; simpl.
  - now rewrite String.eqb_refl.
  - destruct (String.eqb k' k); [discriminate|].
    intros H; now rewrite IH.
Qed.

Lemma get_last (k : string) (v : CartLine) (c : Cart) :
  CartObj.get k c = None -> CartObj.get k (c ++ [(k, v)])%list = Some v.
Proof.
  induction c as [|[k' v'] c IH]; simpl.
  - now rewrite String.eqb_refl.
  - destruct (String.eqb k' k); [discriminate | exact IH].
Qed.

Lemma get_modify (k : string) (f : CartLine -> CartLine) (c : Cart) :
  CartObj.get k (CartObj.modify k f c) = option_map f (CartObj.get k c).
Proof.
  induction c as [|[k' v'] c IH]; simpl; [reflexivity|].
  destruct (String.eqb k' k) eqn:E; simpl; rewrite E; [reflexivity | exact IH].
Qed.

Lemma delete_all_keys (c : Cart) :
  fold_left (fun c' key => CartObj.delete key c') (CartObj.keys c) c = [].
Proof.
  induction c as [|[k v] c IH]; simpl; [reflexivity|].
  rewrite String.eqb_refl; exact IH.
Qed.

Lemma positive_modify (k : string) (f : CartLine -> CartLine) (c : Cart) :
  (forall line, 1 <= quantity line -> 1 <= quantity (f line)) ->
  positive_quantities c -> positive_quantities (CartObj.modify k f c).
Proof.
  intros Hf; induction c as [|[k' v'] c IH]; simpl; intros H; [exact H|].
  inversion H as [|? ? Hv Hc]; subst; simpl in Hv.
  destruct (String.eqb k' k); constructor; simpl; auto.
  apply IH, Hc.
Qed.

Lemma quantity_succ_positive (q : Z) : 0 <= q -> 1 <= quantity_succ q.
Proof.
  unfold quantity_succ; intros H.
  change (2 ^ 53) with 9007199254740992.
  destruct (Z.ltb_spec q 9007199254740992); lia.
Qed.

Lemma cart_after_add_positive (b : Binding) (c : Cart) :
  positive_quantities c -> positive_quantities (cart_after_add b c).
Proof.
  intros H; unfold cart_after_add.
  destruct (CartObj.get (uniqueKey b) c) eqn:G.
  - apply positive_modify; [|exact H].
    intros line Hq; simpl; apply quantity_succ_positive; lia.
  - rewrite (set_fresh _ _ _ G), (modify_last _ _ _ _ G).
    apply Forall_app; split; [exact H|].
    constructor; [|constructor]; simpl.
    apply quantity_succ_positive; lia.
Qed.

Lemma cart_after_add_present (b : Binding) (c : Cart) :
  exists line, CartObj.get (uniqueKey b) (cart_after_add b c) = Some line.
Proof.
  unfold cart_after_add; rewrite get_modify.
  destruct (CartObj.get (uniqueKey b) c) eqn:G.
  - rewrite G; simpl; eauto.
  - rewrite (set_fresh _ _ _ G), (get_last _ _ _ G); simpl; eauto.
Qed.

Lemma cart_after_remove_positive (k : string) (c : Cart) :
  positive_quantities c -> positive_quantities (cart_after_remove k c).
Proof.
  unfold cart_after_remove.
  induction c as [|[k' v] c IH]; simpl; intros H; [exact H|].
  inversion H as [|? ? Hv Hc]; subst; simpl in Hv.
  destruct (String.eqb k' k) eqn:E; simpl; rewrite E.
  - cbn [decrement quantity].
    destruct (quantity v - 1 =? 0) eqn:Q; [exact Hc|].
    apply Z.eqb_neq in Q; constructor; simpl; [lia | exact Hc].
  - specialize (IH Hc).
    destruct (CartObj.get k (CartObj.modify k decrement c)) as [line1|].
    + destruct (quantity line1 =? 0); simpl; rewrite ?E; constructor; auto.
    + constructor; auto.
Qed.

(** ** The handlers *)

Section PageFacts.

Variable format : number -> string.
Variable toLowerCase : string -> string.

Local Abbreviation step := (step format toLowerCase).
Local Abbreviation run := (run format toLowerCase).

Lemma updateSummary_fresh (pg : Page) : fresh format (updateSummary format pg).
Proof. repeat split. Qed.

(** The add handler always finds the line it has just ensured. *)
Lemma addButton_click_acts (i : nat) (pg : Page) (item : ProductItem) :
  nth_error (productItems pg) i = Some item ->
  let b := bind (dataset item) in
  exists line,
    CartObj.get (uniqueKey b) (cart_after_add b (cart pg)) = Some line
    /\ addButton_click format i pg =
         updateSummary format
           (with_cart (cart_after_add b (cart pg))
              (update_nth i
                 (set_quantityDisplay (Num.to_string_int (quantity line)))
                 (productItems pg))
              pg).
Proof.
  intros Hi b.
  destruct (cart_after_add_present b (cart pg)) as [line Hl].
  exists line; split; [exact Hl|].
  unfold addButton_click; rewrite Hi.
  fold b; unfold cart_after_add in Hl; cbv zeta; rewrite Hl; reflexivity.
Qed.

(** The remove handler does nothing on an absent or zero line. *)
Lemma removeButton_click_idle (i : nat) (pg : Page) (item : ProductItem) :
  nth_error (productItems pg) i = Some item ->
  absent_or_zero (uniqueKey (bind (dataset item))) (cart pg) = true ->
  removeButton_click format i pg = pg.
Proof.
  intros Hi Hz.
  unfold removeButton_click; rewrite Hi.
  unfold absent_or_zero in Hz; cbv zeta.
  destruct (CartObj.get _ (cart pg)) as [line|]; [|reflexivity].
  apply Z.leb_le in Hz.
  destruct (Z.ltb_spec 0 (quantity line)); [lia | reflexivity].
Qed.

(** Otherwise it acts, and re-renders. *)
Lemma removeButton_click_acts (i : nat) (pg : Page) (item : ProductItem) :
  nth_error (productItems pg) i = Some item ->
  absent_or_zero (uniqueKey (bind (dataset item))) (cart pg) = false ->
  let k := uniqueKey (bind (dataset item)) in
  exists shown,
    removeButton_click format i pg =
      updateSummary format
        (with_cart (cart_after_remove k (cart pg))
           (update_nth i (set_quantityDisplay shown) (productItems pg))
           pg).
Proof.
  intros Hi Hz k.
  unfold removeButton_click; rewrite Hi.
  unfold absent_or_zero in Hz; cbv zeta; fold k in Hz |- *.
  destruct (CartObj.get k (cart pg)) as [line|]; [|discriminate].
  apply Z.leb_gt in Hz.
  destruct (Z.ltb_spec 0 (quantity line)); [|lia].
  eexists; reflexivity.
Qed.

Lemma checkoutButton_click_cart (pg : Page) :
  cart (checkoutButton_click format pg) = [].
Proof. simpl; apply delete_all_keys. Qed.

Lemma step_positive (pg : Page) (ev : Event) :
  positive_quantities (cart pg) -> positive_quantities (cart (step pg ev)).
Proof.
  intros H; destruct ev as [i|i| |value]; simpl.
  - destruct (nth_error (productItems pg) i) as [item|] eqn:Hi.
    + destruct (addButton_click_acts i pg item Hi) as (line & _ & ->).
      apply cart_after_add_positive, H.
    + unfold addButton_click; rewrite Hi; exact H.
  - destruct (nth_error (productItems pg) i) as [item|] eqn:Hi.
    + destruct (absent_or_zero (uniqueKey (bind (dataset item))) (cart pg)) eqn:Hz.
        rewrite (removeButton_click_idle i pg item Hi Hz); exact H.
      * destruct (removeButton_click_acts i pg item Hi Hz) as (shown & ->).
        apply cart_after_remove_positive, H.
    + unfold removeButton_click; rewrite Hi; exact H.
  - destruct (checkoutDisabled pg); [exact H|].
    rewrite checkoutButton_click_cart.
    constructor.
  - exact H.
Qed.

Lemma run_positive (evs : list Event) (pg : Page) :
  positive_quantities (cart pg) -> positive_quantities (cart (run evs pg)).
Proof.
  revert pg; induction evs as [|ev evs IH]; intros pg H; simpl; [exact H|].
  apply IH, step_positive, H.
Qed.

(** A step either leaves the cart and the summary region alone, or ends
    in a render of the cart it leaves. *)
Lemma step_summary (pg : Page) (ev : Event) :
  (cart (step pg ev) = cart pg /\ summary_of (step pg ev) = summary_of pg)
  \/ fresh format (step pg ev).
Proof.
  destruct ev as [i|i| |value]; simpl.
  - destruct (nth_error (productItems pg) i) as [item|] eqn:Hi.
    + right. destruct (addButton_click_acts i pg item Hi) as (line & _ & ->).
      apply updateSummary_fresh.
    + left; unfold addButton_click; rewrite Hi; auto.
  - destruct (nth_error (productItems pg) i) as [item|] eqn:Hi.
    + destruct (absent_or_zero (uniqueKey (bind (dataset item))) (cart pg)) eqn:Hz.
      * left.
        rewrite (removeButton_click_idle i pg item Hi Hz); auto.
      * right. destruct (removeButton_click_acts i pg item Hi Hz) as (shown & ->).
        apply updateSummary_fresh.
    + left; unfold removeButton_click; rewrite Hi; auto.
  - destruct (checkoutDisabled pg); [left; auto|].
    right; repeat split.
  - left; auto.
Qed.

(** Until the first render the cart is empty; from then on the summary
    region is that of the current cart. *)
Lemma run_summary (evs : list Event) (pg : Page) :
  cart pg = [] \/ fresh format pg ->
  cart (run evs pg) = [] \/ fresh format (run evs pg).
Proof.
  revert pg; induction evs as [|ev evs IH]; intros pg H; simpl; [exact H|].
  apply IH.
  destruct (step_summary pg ev) as [[Hc Hs]|Hf]; [|right; exact Hf].
  destruct H as [H|H]; [left; congruence|].
  right; unfold fresh in *; unfold summary_of in Hs.
  rewrite Hc; injection Hs as -> -> -> ->; exact H.
Qed.

Lemma render_total (c : Cart) : r_total (render format c) = cart_sum c.
Proof.
  unfold render, cart_sum.
  destruct c as [|e c]; [reflexivity|].
  change (isEmpty (e :: c)) with false; cbv iota.
  generalize (e :: c); intros l.
  assert (G : forall acc,
             fst (summary_loop format l acc)
             = fold_left Num.add
                 (map (fun entry : string * CartLine =>
                         Num.mul (price (snd entry))
                                 (Num.of_Z (quantity (snd entry)))) l)
                 (fst acc)).
  { induction l as [|x l IH]; intros acc; [reflexivity|].
    change (summary_loop format (x :: l) acc)
      with (summary_loop format l
              (Num.add (fst acc) (itemTotal (snd x)),
               (snd acc ++ [summaryItem format (snd x)])%list)).
    rewrite IH; reflexivity. }
  specialize (G (Num.zero, [])).
  destruct (summary_loop format l (Num.zero, [])) as [total children].
  exact G.
Qed.

Lemma render_nonempty (c : Cart) :
  c <> [] ->
  r_text (render format c) = "Total: " ++ format (cart_sum c)
  /\ r_disabled (render format c) = false.
Proof.
  intros H; rewrite <- render_total; unfold render.
  destruct c as [|e c]; [congruence|].
  change (isEmpty (e :: c)) with false; cbv iota.
  destruct (summary_loop format (e :: c) (Num.zero, [])); auto.
Qed.

End PageFacts.

(** ** [includes] is substring containment *)

Lemma prefix_iff (t s : string) :
  prefix t s = true <-> exists b, s = t ++ b.
Proof.
  revert s; induction t as [|x t IH]; intros s.
  - split; [exists s; reflexivity | intros _; destruct s; reflexivity].
  - destruct s as [|y s].
    + split; [discriminate | intros [b Hb]; discriminate].
    + change (prefix (String x t) (String y s))
        with (if ascii_dec x y then prefix t s else false).
      destruct (ascii_dec x y) as [E|E].
      * subst; rewrite IH; split; intros [b Hb]; exists b; simpl in *; congruence.
      * split; [discriminate | intros [b Hb]; simpl in Hb; congruence].
Qed.

Lemma includes_iff (s t : string) :
  Str.includes s t = true <-> exists a b, s = a ++ t ++ b.
Proof.
  induction s as [|x s IH].
  - change (Str.includes "" t) with (prefix t "" || false)%bool.
    rewrite orb_false_r, prefix_iff; split.
    + intros [b Hb]; exists "", b; exact Hb.
    + intros (a & b & H); destruct a; [exists b; exact H|discriminate].
  - change (Str.includes (String x s) t)
      with (prefix t (String x s) || Str.includes s t)%bool.
    rewrite orb_true_iff, prefix_iff, IH; split.
    + intros [[b Hb]|(a & b & H)].
      * exists "", b; exact Hb.
      * exists (String x a), b; simpl; now rewrite H.
    + intros (a & b & H); destruct a as [|y a].
      * left; exists b; exact H.
      * right; exists a, b; simpl in H; congruence.
Qed.

(** ** Concrete runs *)

(** [quantity_succ] is the addition of numbers at the edge of exactness. *)
Example number_addition_at_the_edge :
  Num.add (Num.of_Z 0) (Num.of_Z 1) = Num.of_Z (quantity_succ 0)
  /\ Num.add (Num.of_Z (2 ^ 53 - 1)) (Num.of_Z 1) = Num.of_Z (quantity_succ (2 ^ 53 - 1))
  /\ Num.add (Num.of_Z (2 ^ 53)) (Num.of_Z 1) = Num.of_Z (quantity_succ (2 ^ 53)).
Proof. repeat split; vm_compute; reflexivity. Qed.

(** The three decimal literals used below, as binary64 values. *)
Example decimal_literals :
  Num.of_decimal 123450 (-2) = S754_finite false 5429388417957888 (-42)
  /\ Num.of_decimal 1234 (-3) = S754_finite false 5557441940175192 (-52)
  /\ Num.of_decimal 1 (-1) = S754_finite false 7205759403792794 (-56).
Proof. repeat split; vm_compute; reflexivity. Qed.

(** Scenario A of the specification: the 500g product added twice. *)
Example scenario_two_increments :
  let pg := run format_tag lower_ascii [ClickAdd 0; ClickAdd 0] sample_page in
  cart pg = [("7-500g",
              {| name := "Chocolate"; price := Num.of_decimal 123450 (-2);
                 presentation := "500g"; content := ""; quantity := 2 |})]
  /\ cart_sum (cart pg) = Num.of_decimal 2469 0
  /\ checkoutDisabled pg = false.
Proof. vm_compute; repeat split. Qed.

(** Scenario B: two decrements bring the store back to empty. *)
Example scenario_two_decrements :
  let pg := run format_tag lower_ascii
              [ClickAdd 0; ClickAdd 0; ClickRemove 0; ClickRemove 0] sample_page in
  cart pg = [] /\ checkoutDisabled pg = true
  /\ map quantityDisplay (productItems pg) = ["0"; "0"; "0"].
Proof. vm_compute; repeat split. Qed.

(** Scenario C: one id, two presentations, two lines. *)
Example scenario_two_presentations :
  CartObj.keys (cart (run format_tag lower_ascii
                        [ClickAdd 0; ClickAdd 1; ClickAdd 0] sample_page))
  = ["7-500g"; "7-1kg"].
Proof. vm_compute; reflexivity. Qed.

(** * The claims *)

(** C1.  Cart store invariant: in every state reached from the empty store
    by any sequence of add clicks, remove clicks, checkout clicks and
    search inputs, every line held in the store has quantity at least 1;
    no zero-quantity line is left behind by any handler. *)
Theorem cart_quantities_stay_positive
  (format : number -> string) (toLowerCase : string -> string)
  (evs : list Event) (pg : Page) :
  initial pg ->
  positive_quantities (cart (run format toLowerCase evs pg)).
Proof.
  intros H; apply run_positive; rewrite H; constructor.
Qed.

Lemma cart_quantities_stay_positive_witness :
  initial sample_page
  /\ positive_quantities (cart (run format_tag lower_ascii sample_events sample_page)).
Proof.
  split; [reflexivity|].
  apply (cart_quantities_stay_positive format_tag lower_ascii sample_events sample_page).
  reflexivity.
Defined.

(** C2.  Total correctness: in every state reached from the empty store,
    the total a render computes is the sum over the current entries of
    price times quantity, a function of the current cart alone; and once
    the cart is non-empty the total shown is the formatted text of that
    sum, so no handler leaves a stale total behind. *)
Theorem rendered_total_is_cart_sum
  (format : number -> string) (toLowerCase : string -> string)
  (evs : list Event) (pg : Page) :
  initial pg ->
  let pg' := run format toLowerCase evs pg in
  r_total (render format (cart pg')) = cart_sum (cart pg')
  /\ (cart pg' <> [] ->
      summaryTotal pg' = "Total: " ++ format (cart_sum (cart pg'))
      /\ summaryTotal_empty pg' = Num.strict_eq (cart_sum (cart pg')) Num.zero).
Proof.
  intros H pg'; split; [apply render_total|].
  intros Hne.
  destruct (run_summary format toLowerCase evs pg (or_introl H)) as [He|Hf];
    [contradiction|].
  destruct Hf as (_ & Ht & _ & Hz); fold pg' in Ht, Hz.
  rewrite Ht, Hz, render_total.
  split; [apply render_nonempty, Hne | reflexivity].
Qed.

Lemma rendered_total_is_cart_sum_witness :
  let pg' := run format_tag lower_ascii sample_events sample_page in
  initial sample_page
  /\ cart pg' <> []
  /\ summaryTotal pg' = "Total: " ++ format_tag (cart_sum (cart pg')).
Proof.
  intros pg'; split; [reflexivity|]; split; [discriminate|].
  apply (rendered_total_is_cart_sum format_tag lower_ascii sample_events sample_page);
    [reflexivity | discriminate].
Defined.

(** C3.  [parsePrice] on a price text with digits, separators and at most
    one decimal comma returns the number that text denotes, for instance
    1234.50 on ["$1.234,50"]. *)
Theorem parsePrice_reads_decimal_comma (s : string) :
  (Str.count "," s <= 1)%nat -> parsePrice (Text s) = denoted s.
Proof.
  intros H; rewrite parsePrice_reads; unfold denoted.
  assert (E : before_comma (after_comma s) = after_comma s).
  { destruct (split_at_comma s) as [(_ & _ & ->)|(_ & Hc)]; [reflexivity|].
    destruct (split_at_comma (after_comma s)) as [(_ & Hb & _)|(_ & Hc')];
      [exact Hb | lia]. }
  now rewrite E.
Qed.

Lemma parsePrice_reads_decimal_comma_witness :
  (Str.count "," "$1.234,50" <= 1)%nat
  /\ parsePrice (Text "$1.234,50") = Num.of_decimal 123450 (-2).
Proof.
  split; [vm_compute; lia|].
  rewrite (parsePrice_reads_decimal_comma "$1.234,50"); [reflexivity|].
  vm_compute; lia.
Defined.

Lemma count_append (c : ascii) (a b : string) :
  Str.count c (a ++ b) = (Str.count c a + Str.count c b)%nat.
Proof.
  induction a as [|x a IH]; simpl; [reflexivity|].
  destruct (Ascii.eqb x c); simpl; now rewrite IH.
Qed.

(** C4, as the code has it.  A dot is dropped like any other separator and
    never acts as the decimal point: on a text without a comma the digits
    on both sides of the dot are read as one integer, so ["12.50"] parses
    as 1250. *)
Theorem parsePrice_drops_the_dot (a b : string) :
  Str.count "," a = O -> Str.count "," b = O ->
  parsePrice (Text (a ++ String "." b)) =
    Num.of_decimal (Str.digits_value 0 (digits_of a ++ digits_of b)) 0.
Proof.
  intros Ha Hb.
  rewrite parsePrice_without_comma.
  - unfold digits_of; rewrite filter_append; reflexivity.
  - rewrite count_append; simpl; lia.
Qed.

Lemma parsePrice_drops_the_dot_witness :
  parsePrice (Text "12.50") = Num.of_decimal 1250 0.
Proof.
  apply (parsePrice_drops_the_dot "12" "50"); reflexivity.
Defined.

(** C4, as stated, fails: the dot form and the comma form of 12.50 parse
    to different numbers, and the dot form is not 12.50. *)
Lemma parsePrice_dot_is_not_decimal :
  parsePrice (Text "12.50") <> parsePrice (Text "12,50")
  /\ parsePrice (Text "12.50") <> Num.of_decimal 1250 (-2)
  /\ parsePrice (Text "12,50") = Num.of_decimal 1250 (-2).
Proof.
  repeat split; vm_compute; discriminate.
Qed.

(** C5.  [parsePrice] answers 0 on the empty text, on [null] and
    [undefined], on ["abc"], on every text without a digit and on every
    text whose cleaned form [parseFloat] cannot read; and whatever the
    input, its result is not [NaN]. *)
Theorem parsePrice_never_nan :
  parsePrice (Text "") = Num.zero
  /\ parsePrice Null = Num.zero
  /\ parsePrice Undefined = Num.zero
  /\ parsePrice (Text "abc") = Num.zero
  /\ (forall s, digits_of s = "" -> parsePrice (Text s) = Num.zero)
  /\ (forall s, Num.isNaN (ParseFloat.parseFloat (finalPrice s)) = true ->
                parsePrice (Text s) = Num.zero)
  /\ (forall a, Num.isNaN (parsePrice a) = false).
Proof.
  repeat split; try reflexivity.
  - intros s H; rewrite parsePrice_reads.
    assert (Ha : digits_of (before_comma s) = "").
    { destruct (split_at_comma s) as [(_ & -> & _)|(Hs & _)]; [exact H|].
      rewrite Hs in H; unfold digits_of in *; rewrite filter_append in H.
      destruct (Str.filter Str.is_digit (before_comma s));
        [reflexivity | discriminate]. }
    assert (Hb : digits_of (before_comma (after_comma s)) = "").
    { destruct (split_at_comma s) as [(_ & _ & ->)|(Hs & _)]; [reflexivity|].
      rewrite Hs in H; unfold digits_of in H; rewrite filter_append in H.
      fold (digits_of (before_comma s)) in H; rewrite Ha in H; simpl in H.
      destruct (split_at_comma (after_comma s)) as [(_ & -> & _)|(Hr & _)];
        [exact H|].
      rewrite Hr in H; rewrite filter_append in H.
      unfold digits_of.
      destruct (Str.filter Str.is_digit (before_comma (after_comma s)));
        [reflexivity | discriminate]. }
    rewrite Ha, Hb; reflexivity.
  - intros s H; unfold parsePrice.
    destruct (Str.is_empty s); [reflexivity | now rewrite H].
  - intros [| |s]; try reflexivity.
    rewrite parsePrice_reads; apply of_decimal_not_nan.
Qed.

Lemma parsePrice_never_nan_witness :
  digits_of "$ ,-" = ""
  /\ parsePrice (Text "$ ,-") = Num.zero
  /\ Num.isNaN (ParseFloat.parseFloat (finalPrice ",,5")) = true
  /\ parsePrice (Text ",,5") = Num.zero.
Proof.
  destruct parsePrice_never_nan as (_ & _ & _ & _ & Hd & Hn & _).
  split; [reflexivity|].
  split; [apply (Hd "$ ,-"); reflexivity|].
  split; [reflexivity|].
  apply (Hn ",,5"); reflexivity.
Defined.

(** C6.  The remove handler on a key that is absent, or whose line has
    quantity 0, changes nothing: the page it returns is the page it was
    given, and so running it twice gives what running it once gives. *)
Theorem decrement_absent_is_idempotent
  (format : number -> string) (i : nat) (pg : Page) (item : ProductItem) :
  nth_error (productItems pg) i = Some item ->
  absent_or_zero (uniqueKey (bind (dataset item))) (cart pg) = true ->
  removeButton_click format i pg = pg
  /\ removeButton_click format i (removeButton_click format i pg)
     = removeButton_click format i pg.
Proof.
  intros Hi Hz.
  pose proof (removeButton_click_idle format i pg item Hi Hz) as E.
  split; [exact E | now rewrite !E].
Qed.

Lemma decrement_absent_is_idempotent_witness :
  removeButton_click format_tag 1 (removeButton_click format_tag 1 sample_page)
  = removeButton_click format_tag 1 sample_page.
Proof.
  apply (decrement_absent_is_idempotent format_tag 1 sample_page
           (sample_item "7" "Chocolate" (Some "1kg") "$2.000,00"));
    reflexivity.
Defined.

(** C7.  Empty-state render: on the empty cart [updateSummary] finds the
    cart empty, shows the placeholder message and the zero total text and
    disables the checkout button; on every non-empty cart it enables the
    button. *)
Theorem empty_state_render (format : number -> string) (pg : Page) :
  let pg' := updateSummary format pg in
  match cart pg with
  | [] =>
      isEmpty (cart pg) = true
      /\ summaryList pg' = [EmptyMessage empty_message]
      /\ summaryTotal pg' = "Total: $0.00"
      /\ summaryTotal_empty pg' = true
      /\ checkoutDisabled pg' = true
  | _ :: _ =>
      isEmpty (cart pg) = false
      /\ checkoutDisabled pg' = false
  end.
Proof.
  intros pg'; subst pg'; unfold updateSummary, render.
  destruct (cart pg) as [|e c].
  - repeat split.
  - change (isEmpty (e :: c)) with false; cbv iota.
    destruct (summary_loop format (e :: c) (Num.zero, [])); split; reflexivity.
Qed.

Lemma run_nonempty_enabled
  (format : number -> string) (toLowerCase : string -> string)
  (evs : list Event) (pg : Page) :
  initial pg ->
  cart (run format toLowerCase evs pg) <> [] ->
  checkoutDisabled (run format toLowerCase evs pg) = false.
Proof.
  intros H Hne.
  destruct (run_summary format toLowerCase evs pg (or_introl H)) as [He|Hf];
    [contradiction|].
  destruct Hf as (_ & _ & Hd & _); rewrite Hd.
  apply render_nonempty, Hne.
Qed.

(** C8.  Checkout postcondition: the checkout handler leaves the store
    empty, the summary in its empty state and the quantity indicator of
    every product at ["0"], whatever the product's history; and in every
    state reached from the empty store whose cart is non-empty the button
    is enabled, so a click there runs the handler. *)
Theorem checkout_clears_everything
  (format : number -> string) (toLowerCase : string -> string) :
  (forall pg : Page,
     let pg' := checkoutButton_click format pg in
     cart pg' = []
     /\ summaryList pg' = [EmptyMessage empty_message]
     /\ summaryTotal pg' = "Total: $0.00"
     /\ checkoutDisabled pg' = true
     /\ map quantityDisplay (productItems pg')
        = map (fun _ => "0") (productItems pg)
     /\ map dataset (productItems pg') = map dataset (productItems pg))
  /\ (forall (evs : list Event) (pg0 : Page),
        initial pg0 ->
        cart (run format toLowerCase evs pg0) <> [] ->
        step format toLowerCase (run format toLowerCase evs pg0) ClickCheckout
        = checkoutButton_click format (run format toLowerCase evs pg0)).
Proof.
  split.
  - intros pg pg'; subst pg'.
    unfold checkoutButton_click, updateSummary, render; simpl.
    rewrite delete_all_keys; simpl.
    repeat split; rewrite map_map; reflexivity.
  - intros evs pg0 H Hne; simpl.
    now rewrite (run_nonempty_enabled format toLowerCase evs pg0 H Hne).
Qed.

Lemma checkout_clears_everything_witness :
  let pg := run format_tag lower_ascii sample_events sample_page in
  initial sample_page
  /\ cart pg <> []
  /\ step format_tag lower_ascii pg ClickCheckout = checkoutButton_click format_tag pg
  /\ cart (checkoutButton_click format_tag pg) = []
  /\ map quantityDisplay (productItems (checkoutButton_click format_tag pg))
     = ["0"; "0"; "0"].
Proof.
  intros pg.
  destruct (checkout_clears_everything format_tag lower_ascii) as [Hpost Hstep].
  split; [reflexivity|]; split; [discriminate|].
  split; [apply (Hstep sample_events sample_page); [reflexivity | discriminate]|].
  destruct (Hpost pg) as (Hc & _ & _ & _ & Hq & _).
  split; [exact Hc | exact Hq].
Defined.

(** C9.  Search filter: after the input handler has run with a query, a
    product carries the class [hidden] exactly when its lower-cased name
    does not contain the lower-cased query; queries that lower-case alike
    filter alike; and the cart, the quantity indicators and the summary
    are what they were. *)
Theorem search_hides_non_matching
  (toLowerCase : string -> string) (value : string) (pg : Page) :
  let pg' := searchInput_input toLowerCase value pg in
  map hidden (productItems pg')
  = map (fun item =>
           negb (Str.includes (toLowerCase (data_nombre (dataset item)))
                              (toLowerCase value)))
        (productItems pg)
  /\ (forall value',
        toLowerCase value' = toLowerCase value ->
        searchInput_input toLowerCase value' pg = pg')
  /\ cart pg' = cart pg
  /\ map dataset (productItems pg') = map dataset (productItems pg)
  /\ map quantityDisplay (productItems pg') = map quantityDisplay (productItems pg)
  /\ summary_of pg' = summary_of pg.
Proof.
  intros pg'; subst pg'; unfold searchInput_input; simpl.
  repeat split.
  - rewrite map_map; apply map_ext; intros item.
    destruct (Str.includes _ _); reflexivity.
  - intros value' E; now rewrite E.
  - rewrite map_map; apply map_ext_in; intros item _.
    destruct (Str.includes _ _); reflexivity.
  - rewrite map_map; rewrite <- (map_id (map quantityDisplay (productItems pg))).
    rewrite map_map; apply map_ext; intros item.
    destruct (Str.includes _ _); reflexivity.
Qed.

Lemma search_hides_non_matching_witness :
  lower_ascii "CHOCO" = lower_ascii "choco"
  /\ searchInput_input lower_ascii "CHOCO" sample_page
     = searchInput_input lower_ascii "choco" sample_page
  /\ map hidden (productItems (searchInput_input lower_ascii "choco" sample_page))
     = [false; false; true].
Proof.
  destruct (search_hides_non_matching lower_ascii "choco" sample_page)
    as (Hh & Hci & _).
  split; [reflexivity|].
  split; [apply (Hci "CHOCO"); reflexivity|].
  rewrite Hh; reflexivity.
Defined.

(** An input with two commas, split at them. *)
Lemma parsePrice_two_commas (a b c : string) :
  Str.count "," a = O -> Str.count "," b = O ->
  finalPrice (a ++ String "," (b ++ String "," c))
  = digits_of a ++ String "." (digits_of b ++ String "," (cleanedPrice c))
  /\ parsePrice (Text (a ++ String "," (b ++ String "," c)))
     = denoted (a ++ String "," b).
Proof.
  intros Ha Hb; split.
  - rewrite (finalPrice_with_comma a _ Ha).
    unfold cleanedPrice; rewrite filter_append, (filter_without_comma b Hb).
    reflexivity.
  - rewrite (parsePrice_with_comma a b (String "," c) Ha Hb eq_refl).
    unfold denoted.
    destruct (before_after_append a b Ha) as [-> ->]; reflexivity.
Qed.

(** C10.  Only the first comma becomes the decimal point: on a text with
    two or more commas the second comma stays in the text handed to
    [parseFloat], and the value is the number denoted by the part before
    the second comma, so ["1,234,50"] parses as 1.234. *)
Theorem parsePrice_stops_at_second_comma (s : string) :
  (2 <= Str.count "," s)%nat ->
  let a := before_comma s in
  let b := before_comma (after_comma s) in
  let c := after_comma (after_comma s) in
  s = a ++ String "," (b ++ String "," c)
  /\ finalPrice s
     = digits_of a ++ String "." (digits_of b ++ String "," (cleanedPrice c))
  /\ parsePrice (Text s) = denoted (a ++ String "," b).
Proof.
  intros H a b c.
  assert (Hs : s = a ++ String "," (b ++ String "," c)).
  { subst a b c.
    destruct (split_at_comma s) as [(H0 & _)|(Hs & Hc)]; [lia|].
    destruct (split_at_comma (after_comma s)) as [(H0 & _)|(Hr & _)]; [lia|].
    now rewrite <- Hr. }
  split; [exact Hs|].
  destruct (parsePrice_two_commas a b c
              (before_comma_count s) (before_comma_count (after_comma s)))
    as [Hf Hp].
  rewrite <- Hs in Hf, Hp; split; assumption.
Qed.

Lemma parsePrice_stops_at_second_comma_witness :
  (2 <= Str.count "," "1,234,50")%nat
  /\ finalPrice "1,234,50" = "1.234,50"
  /\ parsePrice (Text "1,234,50") = Num.of_decimal 1234 (-3)
  /\ parsePrice (Text "1,234,50") <> Num.of_decimal 123450 (-2).
Proof.
  assert (H2 : (2 <= Str.count "," "1,234,50")%nat) by (vm_compute; lia).
  destruct (parsePrice_stops_at_second_comma "1,234,50" H2) as (_ & Hf & Hp).
  split; [exact H2|].
  split; [exact Hf|].
  split; [rewrite Hp; reflexivity|].
  rewrite Hp; vm_compute; discriminate.
Defined.

(** * Further properties *)

(** ** Numbers: signs *)

Lemma digits2_pos_size (p : positive) : digits2_pos p = Pos.size p.
Proof. induction p; simpl; congruence. Qed.

Lemma digits2_pos_shift (p k : positive) :
  digits2_pos (Pos.iter xO p k) = (digits2_pos p + k)%positive.
Proof.
  induction k as [|k IH] using Pos.peano_ind.
  - simpl; lia.
  - rewrite Pos.iter_succ; simpl; rewrite IH; lia.
Qed.

Lemma digits2_pos_below (p : positive) :
  Z.pos p < 2 ^ 53 -> Z.pos (digits2_pos p) <= 53.
Proof.
  intros H; rewrite digits2_pos_size.
  pose proof (Pos.size_le p) as L.
  destruct (Z.le_gt_cases (Z.pos (Pos.size p)) 53) as [|G]; [assumption|exfalso].
  assert (E : 2 ^ 54 <= 2 ^ Z.pos (Pos.size p)) by (apply Z.pow_le_mono_r; lia).
  assert (L' : 2 ^ Z.pos (Pos.size p) <= 2 * Z.pos p).
  { change (2 * Z.pos p) with (Z.pos p~0).
    rewrite <- Pos2Z.inj_pow; apply Pos2Z.pos_le_pos, L. }
  change (2 ^ 54) with (2 * 2 ^ 53) in E; lia.
Qed.

(** Rounding a non-negative mantissa with sign [false] yields a
    non-negative number. *)
Lemma binary_round_aux_nonneg (mx ex : Z) (lx : location) :
  0 <= mx -> nonneg (binary_round_aux Num.prec Num.emax false mx ex lx) = true.
Proof.
  intros H; unfold binary_round_aux.
  pose proof (shr_fexp_nonneg mx ex lx H) as H1.
  destruct (shr_fexp Num.prec Num.emax mx ex lx) as [mrs' e']; simpl in H1.
  pose proof (shr_fexp_nonneg _ e' loc_Exact
                (round_nearest_even_nonneg _ (loc_of_shr_record mrs') H1)) as H2.
  destruct (shr_fexp Num.prec Num.emax _ e' loc_Exact) as [mrs'' e'']; simpl in H2.
  destruct (shr_m mrs'') as [|m|m]; try reflexivity.
  - destruct (e'' <=? Num.emax - Num.prec); reflexivity.
  - lia.
Qed.

Lemma binary_normalize_nonneg (m e : Z) :
  0 <= m -> nonneg (binary_normalize Num.prec Num.emax m e false) = true.
Proof.
  intros H; destruct m as [|p|p]; simpl; try reflexivity; [|lia].
  unfold binary_round; destruct (shl_align _ _ _) as [mz ez].
  apply binary_round_aux_nonneg; lia.
Qed.

Lemma of_decimal_nonneg (n e10 : Z) : nonneg (Num.of_decimal n e10) = true.
Proof.
  unfold Num.of_decimal.
  destruct n as [|p|p]; try reflexivity.
  destruct e10 as [|k|k]; try (apply binary_normalize_nonneg; lia).
  unfold SFdiv, SFdiv_core_binary.
  set (m' := match _ with Z0 => _ | Zpos _ => _ | Zneg _ => _ end).
  assert (Hm : 0 <= m').
  { subst m'.
    destruct (_ - _ - _) as [|q|q]; try lia.
    apply Z.shiftl_nonneg; lia. }
  pose proof (Z.div_pos m' (Z.pos (10 ^ k)) Hm ltac:(lia)) as Hq.
  unfold Z.div in Hq.
  destruct (Z.div_eucl m' (Z.pos (10 ^ k))) as [q r]; simpl in Hq.
  apply binary_round_aux_nonneg; exact Hq.
Qed.

Lemma add_nonneg (x y : number) :
  nonneg x = true -> nonneg y = true -> nonneg (Num.add x y) = true.
Proof.
  destruct x as [[]|[]| |[] mx ex]; try discriminate;
    destruct y as [[]|[]| |[] my ey]; try discriminate;
    intros _ _; try reflexivity.
  unfold Num.add, SFadd.
  apply binary_normalize_nonneg; simpl; lia.
Qed.

Lemma mul_nonneg (x y : number) :
  nonneg x = true -> positive_finite y = true -> nonneg (Num.mul x y) = true.
Proof.
  destruct x as [[]|[]| |[] mx ex]; try discriminate;
    destruct y as [[]|[]| |[] my ey]; try discriminate;
    intros _ _; try reflexivity.
  unfold Num.mul, SFmul.
  apply binary_round_aux_nonneg; lia.
Qed.

(** A whole number from 1 to [2 ^ 53] is a positive finite number. *)
Lemma of_Z_positive_finite (q : Z) :
  1 <= q <= 2 ^ 53 -> positive_finite (Num.of_Z q) = true.
Proof.
  intros [H1 H2].
  destruct (Z.eq_dec q (2 ^ 53)) as [->|Hne]; [vm_compute; reflexivity|].
  destruct q as [|p|p]; try lia.
  assert (Hp : Z.pos p < 2 ^ 53) by lia.
  pose proof (digits2_pos_below p Hp) as Hd.
  unfold Num.of_Z, binary_normalize, binary_round.
  set (d := digits2_pos p) in *.
  assert (Hf : fexp Num.prec Num.emax (Z.pos d + 0) = Z.pos d - 53).
  { unfold fexp, emin, Num.prec, Num.emax; lia. }
  rewrite Hf.
  assert (Hs : exists mz,
             shl_align p 0 (Z.pos d - 53) = (mz, Z.pos d - 53)
             /\ Z.pos (digits2_pos mz) = 53).
  { unfold shl_align.
    destruct (Z.pos d - 53 - 0) as [|k|k] eqn:E; try lia.
    - exists p; split; [f_equal; lia | fold d; lia].
    - exists (Pos.iter xO p k); split; [reflexivity|].
      rewrite digits2_pos_shift; fold d; lia. }
  destruct Hs as (mz & -> & Hmz).
  unfold binary_round_aux, shr_fexp.
  cbn [Zdigits2 shr_record_of_loc].
  assert (Hn : fexp Num.prec Num.emax (Z.pos (digits2_pos mz) + (Z.pos d - 53))
               - (Z.pos d - 53) = 0).
  { rewrite Hmz; unfold fexp, emin, Num.prec, Num.emax; lia. }
  rewrite Hn; cbn [shr shr_m loc_of_shr_record round_nearest_even Zdigits2].
  rewrite Hn; cbn [shr shr_m shr_record_of_loc].
  replace (Z.pos d - 53 <=? Num.emax - Num.prec) with true; [reflexivity|].
  symmetry; apply Z.leb_le; unfold Num.emax, Num.prec; lia.
Qed.

(** ** The cart object: other keys, key order *)

Lemma get_none_iff (k : string) (c : Cart) :
  CartObj.get k c = None <-> ~ In k (CartObj.keys c).
Proof.
  induction c as [|[k' v] c IH]; simpl; [tauto|].
  destruct (String.eqb_spec k' k) as [E|E].
  - split; [discriminate | intros H; exfalso; apply H; auto].
  - rewrite IH; tauto.
Qed.

Lemma get_set_other (k k' : string) (v : CartLine) (c : Cart) :
  k' <> k -> CartObj.get k' (CartObj.set k v c) = CartObj.get k' c.
Proof.
  intros N; induction c as [|[k0 v0] c IH]; simpl.
  - destruct (String.eqb_spec k k'); [congruence | reflexivity].
  - destruct (String.eqb_spec k0 k) as [E|E]; simpl.
    + subst; destruct (String.eqb_spec k k'); [congruence | reflexivity].
    + destruct (String.eqb k0 k'); [reflexivity | exact IH].
Qed.

Lemma get_modify_other (k k' : string) (f : CartLine -> CartLine) (c : Cart) :
  k' <> k -> CartObj.get k' (CartObj.modify k f c) = CartObj.get k' c.
Proof.
  intros N; induction c as [|[k0 v0] c IH]; simpl; [reflexivity|].
  destruct (String.eqb_spec k0 k) as [E|E]; simpl.
  - subst; destruct (String.eqb_spec k k'); [congruence | reflexivity].
  - destruct (String.eqb k0 k'); [reflexivity | exact IH].
Qed.

Lemma get_delete_other (k k' : string) (c : Cart) :
  k' <> k -> CartObj.get k' (CartObj.delete k c) = CartObj.get k' c.
Proof.
  intros N; induction c as [|[k0 v0] c IH]; simpl; [reflexivity|].
  destruct (String.eqb_spec k0 k) as [E|E]; simpl.
  - subst; destruct (String.eqb_spec k k'); [congruence | reflexivity].
  - destruct (String.eqb k0 k'); [reflexivity | exact IH].
Qed.

Lemma keys_modify (k : string) (f : CartLine -> CartLine) (c : Cart) :
  CartObj.keys (CartObj.modify k f c) = CartObj.keys c.
Proof.
  induction c as [|[k0 v0] c IH]; simpl; [reflexivity|].
  destruct (String.eqb k0 k); simpl; [reflexivity | now f_equal].
Qed.

Lemma delete_absent (k : string) (c : Cart) :
  CartObj.get k c = None -> CartObj.delete k c = c.
Proof.
  induction c as [|[k0 v0] c IH]; simpl; [reflexivity|].
  destruct (String.eqb k0 k); [discriminate|].
  intros H; now rewrite IH.
Qed.

Lemma delete_last (k : string) (v : CartLine) (c : Cart) :
  CartObj.get k c = None -> CartObj.delete k (c ++ [(k, v)])%list = c.
Proof.
  induction c as [|[k0 v0] c IH]; simpl.
  - now rewrite String.eqb_refl.
  - destruct (String.eqb k0 k); [discriminate|].
    intros H; now rewrite IH.
Qed.

Lemma keys_delete_subset (k k' : string) (c : Cart) :
  In k' (CartObj.keys (CartObj.delete k c)) -> In k' (CartObj.keys c).
Proof.
  induction c as [|[k0 v0] c IH]; simpl; [tauto|].
  destruct (String.eqb k0 k); simpl; tauto.
Qed.

Lemma delete_NoDup (k : string) (c : Cart) :
  NoDup (CartObj.keys c) -> NoDup (CartObj.keys (CartObj.delete k c)).
Proof.
  induction c as [|[k0 v0] c IH]; simpl; intros H; [exact H|].
  inversion H as [|? ? Hn Hc]; subst.
  destruct (String.eqb k0 k); simpl; [exact Hc|].
  constructor; [|exact (IH Hc)].
  intros Hin; apply Hn, (keys_delete_subset k), Hin.
Qed.

(** Once its first line is deleted, a key that occurred once is gone. *)
Lemma get_delete_same (k : string) (c : Cart) :
  NoDup (CartObj.keys c) -> CartObj.get k (CartObj.delete k c) = None.
Proof.
  induction c as [|[k0 v0] c IH]; simpl; intros H; [reflexivity|].
  inversion H as [|? ? Hn Hc]; subst.
  destruct (String.eqb_spec k0 k) as [E|E]; simpl.
  - subst; apply get_none_iff, Hn.
  - destruct (String.eqb_spec k0 k); [congruence | exact (IH Hc)].
Qed.

Lemma modify_same (k : string) (f : CartLine -> CartLine) (line : CartLine) (c : Cart) :
  CartObj.get k c = Some line -> f line = line -> CartObj.modify k f c = c.
Proof.
  induction c as [|[k0 v0] c IH]; simpl; [discriminate|].
  destruct (String.eqb k0 k).
  - intros [= ->] ->; reflexivity.
  - intros H E; now rewrite IH.
Qed.

Lemma modify_modify (k : string) (f g : CartLine -> CartLine) (c : Cart) :
  CartObj.modify k g (CartObj.modify k f c)
  = CartObj.modify k (fun line => g (f line)) c.
Proof.
  induction c as [|[k0 v0] c IH]; simpl; [reflexivity|].
  destruct (String.eqb k0 k) eqn:E; simpl; rewrite E; [reflexivity | now rewrite IH].
Qed.

(** The cart after an add click, by cases. *)
Lemma cart_after_add_cases (b : Binding) (c : Cart) :
  match CartObj.get (uniqueKey b) c with
  | Some _ => cart_after_add b c = CartObj.modify (uniqueKey b) increment c
  | None => cart_after_add b c = (c ++ [(uniqueKey b, increment (new_line b))])%list
  end.
Proof.
  unfold cart_after_add.
  destruct (CartObj.get (uniqueKey b) c) eqn:G; [reflexivity|].
  now rewrite (set_fresh _ _ _ G), (modify_last _ _ _ _ G).
Qed.

Lemma cart_after_add_other (b : Binding) (k' : string) (c : Cart) :
  k' <> uniqueKey b ->
  CartObj.get k' (cart_after_add b c) = CartObj.get k' c.
Proof.
  intros N; unfold cart_after_add; rewrite (get_modify_other _ _ _ _ N).
  destruct (CartObj.get (uniqueKey b) c); [reflexivity|].
  apply get_set_other, N.
Qed.

Lemma cart_after_remove_other (k k' : string) (c : Cart) :
  k' <> k -> CartObj.get k' (cart_after_remove k c) = CartObj.get k' c.
Proof.
  intros N; unfold cart_after_remove.
  destruct (CartObj.get k (CartObj.modify k decrement c)) as [line1|];
    [destruct (quantity line1 =? 0)|];
    rewrite ?(get_delete_other _ _ _ N); apply get_modify_other, N.
Qed.

Lemma cart_after_add_keys (b : Binding) (c : Cart) :
  CartObj.keys (cart_after_add b c)
  = match CartObj.get (uniqueKey b) c with
    | Some _ => CartObj.keys c
    | None => (CartObj.keys c ++ [uniqueKey b])%list
    end.
Proof.
  pose proof (cart_after_add_cases b c) as H.
  destruct (CartObj.get (uniqueKey b) c); rewrite H.
  - apply keys_modify.
  - unfold CartObj.keys; now rewrite map_app.
Qed.

Lemma cart_after_add_NoDup (b : Binding) (c : Cart) :
  NoDup (CartObj.keys c) -> NoDup (CartObj.keys (cart_after_add b c)).
Proof.
  intros H; rewrite cart_after_add_keys.
  destruct (CartObj.get (uniqueKey b) c) eqn:G; [exact H|].
  apply get_none_iff in G.
  apply NoDup_app; repeat split; auto.
  - constructor; [simpl; tauto | constructor].
  - intros x Hx [<-|[]]; auto.
Qed.

Lemma cart_after_remove_NoDup (k : string) (c : Cart) :
  NoDup (CartObj.keys c) -> NoDup (CartObj.keys (cart_after_remove k c)).
Proof.
  intros H; unfold cart_after_remove.
  assert (Hm : NoDup (CartObj.keys (CartObj.modify k decrement c)))
    by (now rewrite keys_modify).
  destruct (CartObj.get k (CartObj.modify k decrement c)) as [line1|];
    [destruct (quantity line1 =? 0)|]; auto using delete_NoDup.
Qed.

(** What a remove click that acts leaves under the clicked key. *)
Lemma cart_after_remove_quantity (k : string) (c : Cart) :
  NoDup (CartObj.keys c) -> 1 <= quantity_in k c ->
  quantity_in k (cart_after_remove k c) = quantity_in k c - 1.
Proof.
  intros Hn Hq; unfold quantity_in in *; unfold cart_after_remove.
  rewrite get_modify.
  destruct (CartObj.get k c) as [line|] eqn:G; simpl; [|lia].
  destruct (quantity line - 1 =? 0) eqn:Q.
  - rewrite get_delete_same; [apply Z.eqb_eq in Q; lia|].
    now rewrite keys_modify.
  - rewrite get_modify, G; reflexivity.
Qed.

Lemma Forall_cart_after_add (P : string * CartLine -> Prop) (b : Binding) (c : Cart) :
  P (uniqueKey b, increment (new_line b)) ->
  (forall k line, P (k, line) -> P (k, increment line)) ->
  Forall P c -> Forall P (cart_after_add b c).
Proof.
  intros Hnew Hinc H.
  pose proof (cart_after_add_cases b c) as E.
  destruct (CartObj.get (uniqueKey b) c); rewrite E; clear E.
  - induction c as [|[k0 v0] c IH]; simpl; [constructor|].
    inversion H as [|? ? Hv Hc]; subst.
    destruct (String.eqb k0 (uniqueKey b)); constructor; auto.
  - apply Forall_app; split; [exact H | constructor; [exact Hnew | constructor]].
Qed.

Lemma Forall_cart_after_remove (P : string * CartLine -> Prop) (k : string) (c : Cart) :
  (forall k' line, P (k', line) -> quantity line - 1 <> 0 -> P (k', decrement line)) ->
  Forall P c -> Forall P (cart_after_remove k c).
Proof.
  intros Hdec; unfold cart_after_remove.
  induction c as [|[k0 v] c IH]; simpl; intros H; [exact H|].
  inversion H as [|? ? Hv Hc]; subst.
  destruct (String.eqb k0 k) eqn:E; simpl; rewrite E.
  - cbn [decrement quantity].
    destruct (quantity v - 1 =? 0) eqn:Q; [exact Hc|].
    apply Z.eqb_neq in Q; constructor; auto.
  - specialize (IH Hc).
    destruct (CartObj.get k (CartObj.modify k decrement c)) as [line1|].
    + destruct (quantity line1 =? 0); simpl; rewrite ?E; constructor; auto.
    + constructor; auto.
Qed.

(** ** The product list *)

Lemma nth_error_update_nth {A : Type} (i : nat) (f : A -> A) (l : list A) :
  nth_error (update_nth i f l) i = option_map f (nth_error l i).
Proof.
  revert i; induction l as [|x l IH]; intros [|i]; simpl; auto.
Qed.

Lemma nth_error_update_nth_other {A : Type} (i j : nat) (f : A -> A) (l : list A) :
  j <> i -> nth_error (update_nth i f l) j = nth_error l j.
Proof.
  revert i j; induction l as [|x l IH]; intros [|i] [|j] N; simpl; auto.
  congruence.
Qed.

Lemma map_update_nth {A B : Type} (g : A -> B) (i : nat) (f : A -> A) (l : list A) :
  (forall x, g (f x) = g x) -> map g (update_nth i f l) = map g l.
Proof.
  intros H; revert i; induction l as [|x l IH]; intros [|i]; simpl;
    rewrite ?H, ?IH; reflexivity.
Qed.

Lemma to_string_int_quantity_in (k : string) (c : Cart) :
  match CartObj.get k c with
  | Some line => Num.to_string_int (quantity line)
  | None => "0"
  end = Num.to_string_int (quantity_in k c).
Proof. unfold quantity_in; destruct (CartObj.get k c); reflexivity. Qed.

(** ** The handlers, written out *)

Section StepFacts.

Variable format : number -> string.
Variable toLowerCase : string -> string.

Local Abbreviation step := (step format toLowerCase).
Local Abbreviation run := (run format toLowerCase).

Lemma addButton_click_result (i : nat) (pg : Page) (item : ProductItem) :
  nth_error (productItems pg) i = Some item ->
  let c' := cart_after_add (bind (dataset item)) (cart pg) in
  addButton_click format i pg =
    updateSummary format
      (with_cart c'
         (update_nth i
            (set_quantityDisplay (Num.to_string_int (quantity_in (key_of item) c')))
            (productItems pg))
         pg).
Proof.
  intros Hi c'.
  destruct (addButton_click_acts format i pg item Hi) as (line & Hl & ->).
  unfold quantity_in, key_of; subst c'; now rewrite Hl.
Qed.

Lemma removeButton_click_result (i : nat) (pg : Page) (item : ProductItem) :
  nth_error (productItems pg) i = Some item ->
  absent_or_zero (key_of item) (cart pg) = false ->
  let c' := cart_after_remove (key_of item) (cart pg) in
  removeButton_click format i pg =
    updateSummary format
      (with_cart c'
         (update_nth i
            (set_quantityDisplay (Num.to_string_int (quantity_in (key_of item) c')))
            (productItems pg))
         pg).
Proof.
  intros Hi Hz c'.
  unfold removeButton_click; rewrite Hi.
  unfold absent_or_zero, key_of in *; cbv zeta.
  destruct (CartObj.get _ (cart pg)) as [line|]; [|discriminate].
  apply Z.leb_gt in Hz.
  destruct (Z.ltb_spec 0 (quantity line)); [|lia].
  rewrite to_string_int_quantity_in; reflexivity.
Qed.

Lemma step_cart (pg : Page) (ev : Event) : cart (step pg ev) = next_cart pg ev.
Proof.
  destruct ev as [i|i| |value]; simpl.
  - destruct (nth_error (productItems pg) i) as [item|] eqn:Hi.
    + now rewrite (addButton_click_result i pg item Hi).
    + unfold addButton_click; now rewrite Hi.
  - destruct (nth_error (productItems pg) i) as [item|] eqn:Hi.
    + destruct (absent_or_zero (key_of item) (cart pg)) eqn:Hz.
      * now rewrite (removeButton_click_idle format i pg item Hi Hz).
      * now rewrite (removeButton_click_result i pg item Hi Hz).
    + unfold removeButton_click; now rewrite Hi.
  - destruct (checkoutDisabled pg); [reflexivity|].
    apply checkoutButton_click_cart.
  - reflexivity.
Qed.

Lemma step_datasets (pg : Page) (ev : Event) :
  map dataset (productItems (step pg ev)) = map dataset (productItems pg).
Proof.
  destruct ev as [i|i| |value]; simpl.
  - destruct (nth_error (productItems pg) i) as [item|] eqn:Hi.
    + rewrite (addButton_click_result i pg item Hi); simpl.
      now apply map_update_nth.
    + unfold addButton_click; now rewrite Hi.
  - destruct (nth_error (productItems pg) i) as [item|] eqn:Hi.
    + destruct (absent_or_zero (key_of item) (cart pg)) eqn:Hz.
      * now rewrite (removeButton_click_idle format i pg item Hi Hz).
      * rewrite (removeButton_click_result i pg item Hi Hz); simpl.
        now apply map_update_nth.
    + unfold removeButton_click; now rewrite Hi.
  - destruct (checkoutDisabled pg); [reflexivity|]; simpl.
    rewrite map_map; reflexivity.
  - simpl; rewrite map_map; apply map_ext; intros item.
    destruct (Str.includes _ _); reflexivity.
Qed.

Lemma run_datasets (evs : list Event) (pg : Page) :
  map dataset (productItems (run evs pg)) = map dataset (productItems pg).
Proof.
  revert pg; induction evs as [|ev evs IH]; intros pg; simpl; [reflexivity|].
  now rewrite IH, step_datasets.
Qed.

(** An invariant of the cart that every action keeps holds after a run. *)
Lemma run_cart_invariant (P : list Dataset -> Cart -> Prop) :
  (forall pg ev,
     P (map dataset (productItems pg)) (cart pg) ->
     P (map dataset (productItems pg)) (next_cart pg ev)) ->
  forall evs pg,
    P (map dataset (productItems pg)) (cart pg) ->
    P (map dataset (productItems pg)) (cart (run evs pg)).
Proof.
  intros Hstep evs; induction evs as [|ev evs IH]; intros pg H; simpl; [exact H|].
  rewrite <- (step_datasets pg ev).
  apply IH; rewrite step_datasets, step_cart; apply Hstep, H.
Qed.

End StepFacts.

(** ** The price parser, further *)

Lemma filter_filter (f : ascii -> bool) (s : string) :
  Str.filter f (Str.filter f s) = Str.filter f s.
Proof.
  induction s as [|c s IH]; simpl; [reflexivity|].
  destruct (f c) eqn:E; simpl; rewrite ?E, IH; reflexivity.
Qed.

Lemma parsePrice_of_cleaned (s : string) :
  parsePrice (Text s) = parsePrice (Text (cleanedPrice s)).
Proof.
  unfold parsePrice, finalPrice, cleanedPrice.
  rewrite filter_filter.
  destruct s as [|c s]; [reflexivity|].
  cbn [Str.is_empty].
  destruct (Str.filter digit_or_comma (String c s)); reflexivity.
Qed.

(** X1.  A character that is neither a digit nor a comma (a currency sign,
    a space, a letter, a dot, a minus sign) never changes what [parsePrice]
    returns, wherever it stands in the text. *)
Theorem parsePrice_ignores_other_characters (a b : string) (c : ascii) :
  digit_or_comma c = false ->
  parsePrice (Text (a ++ String c b)) = parsePrice (Text (a ++ b)).
Proof.
  intros H.
  rewrite (parsePrice_of_cleaned (a ++ String c b)), (parsePrice_of_cleaned (a ++ b)).
  unfold cleanedPrice; rewrite !filter_append; simpl; now rewrite H.
Qed.

Lemma parsePrice_ignores_other_characters_witness :
  parsePrice (Text "-1.234,50") = parsePrice (Text "1.234,50").
Proof.
  apply (parsePrice_ignores_other_characters "" "1.234,50" "-"); reflexivity.
Defined.

Lemma parsePrice_nonneg (a : PriceArg) : nonneg (parsePrice a) = true.
Proof.
  destruct a as [| |s]; try reflexivity.
  rewrite parsePrice_reads; apply of_decimal_nonneg.
Qed.

(** X2.  Whatever it is given, [parsePrice] returns plus zero, a positive
    finite number or plus infinity: the sign bit of its result is never
    set, so it is never a negative number and never minus zero. *)
Theorem parsePrice_is_never_negative (a : PriceArg) :
  match parsePrice a with
  | S754_zero sign | S754_infinity sign | S754_finite sign _ _ => sign = false
  | S754_nan => False
  end.
Proof.
  pose proof (parsePrice_nonneg a) as H.
  destruct (parsePrice a) as [[]|[]| |[] m e]; try discriminate; reflexivity.
Qed.

(** ** Composite keys *)

Lemma append_cancel_l (a b c : string) : a ++ b = a ++ c -> b = c.
Proof. induction a as [|x a IH]; simpl; [auto | intros [= H]; auto]. Qed.

Lemma split_at_hyphen (a1 a2 b1 b2 : string) :
  Str.count "-" a1 = O -> Str.count "-" a2 = O ->
  a1 ++ String "-" b1 = a2 ++ String "-" b2 -> a1 = a2 /\ b1 = b2.
Proof.
  revert a2; induction a1 as [|x a1 IH]; intros [|y a2]; simpl.
  - intros _ _ [= H]; auto.
  - destruct (Ascii.eqb_spec y "-"); [discriminate|]; intros _ _ [= H _]; congruence.
  - destruct (Ascii.eqb_spec x "-"); [discriminate|]; intros _ _ [= H _]; congruence.
  - destruct (Ascii.eqb x "-"); [discriminate|].
    destruct (Ascii.eqb y "-"); [discriminate|].
    intros H1 H2 [= -> H]; destruct (IH a2 H1 H2 H); split; congruence.
Qed.

(** X3.  When no product id contains a hyphen, two products get the same
    composite key exactly when they have the same id and the same
    presentation, a missing presentation counting as the empty one. *)
Theorem uniqueKey_separates_products (d1 d2 : Dataset) :
  Str.count "-" (data_id d1) = O -> Str.count "-" (data_id d2) = O ->
  (uniqueKey (bind d1) = uniqueKey (bind d2)
   <-> data_id d1 = data_id d2
       /\ or_empty (data_presentacion d1) = or_empty (data_presentacion d2)).
Proof.
  intros H1 H2; simpl; split.
  - intros H; exact (split_at_hyphen _ _ _ _ H1 H2 H).
  - intros [-> ->]; reflexivity.
Qed.

Lemma uniqueKey_separates_products_witness :
  uniqueKey (bind (dataset (sample_item "7" "Chocolate" (Some "500g") "1")))
  <> uniqueKey (bind (dataset (sample_item "7" "Chocolate" (Some "1kg") "1"))).
Proof.
  intros H.
  apply (uniqueKey_separates_products
           (dataset (sample_item "7" "Chocolate" (Some "500g") "1"))
           (dataset (sample_item "7" "Chocolate" (Some "1kg") "1"))
           eq_refl eq_refl) in H.
  destruct H as [_ H]; discriminate H.
Defined.

(** With a hyphen in an id the keys of different products can coincide. *)
Example uniqueKey_collision :
  uniqueKey (bind (dataset (sample_item "a-b" "x" (Some "c") "1")))
  = uniqueKey (bind (dataset (sample_item "a" "y" (Some "b-c") "2"))).
Proof. reflexivity. Qed.

(** ** Invariants of the cart *)

Lemma two_53 : 2 ^ 53 = 9007199254740992.
Proof. reflexivity. Qed.

Lemma quantity_succ_bounds (q : Z) :
  0 <= q <= 2 ^ 53 -> 1 <= quantity_succ q <= 2 ^ 53.
Proof.
  unfold quantity_succ; change (2 ^ 53) with 9007199254740992.
  destruct (Z.ltb_spec q 9007199254740992); lia.
Qed.

Lemma cart_sum_nonneg (c : Cart) : sound_cart c -> nonneg (cart_sum c) = true.
Proof.
  unfold cart_sum.
  assert (G : forall acc, nonneg acc = true -> sound_cart c ->
                nonneg (fold_left Num.add
                          (map (fun entry : string * CartLine =>
                                  Num.mul (price (snd entry))
                                          (Num.of_Z (quantity (snd entry)))) c)
                          acc) = true).
  { induction c as [|[k line] c IH]; intros acc Ha H; simpl; [exact Ha|].
    inversion H as [|? ? [Hq Hp] Hc]; subst; simpl in Hq, Hp.
    apply IH; [|exact Hc].
    apply add_nonneg; [exact Ha|].
    apply mul_nonneg; [exact Hp | apply of_Z_positive_finite, Hq]. }
  apply G; reflexivity.
Qed.

Section CartInvariants.

Variable format : number -> string.
Variable toLowerCase : string -> string.

Local Abbreviation run := (run format toLowerCase).

Lemma run_NoDup (evs : list Event) (pg : Page) :
  NoDup (CartObj.keys (cart pg)) -> NoDup (CartObj.keys (cart (run evs pg))).
Proof.
  apply (run_cart_invariant format toLowerCase
           (fun _ c => NoDup (CartObj.keys c))).
  clear; intros pg ev H; destruct ev as [i|i| |value]; simpl; auto.
  - destruct (nth_error (productItems pg) i); auto using cart_after_add_NoDup.
  - destruct (nth_error (productItems pg) i) as [item|]; auto.
    destruct (absent_or_zero _ _); auto using cart_after_remove_NoDup.
  - destruct (checkoutDisabled pg); [auto | constructor].
Qed.

Lemma run_sound (evs : list Event) (pg : Page) :
  sound_cart (cart pg) -> sound_cart (cart (run evs pg)).
Proof.
  apply (run_cart_invariant format toLowerCase (fun _ c => sound_cart c)).
  clear; intros pg ev H; destruct ev as [i|i| |value]; simpl; auto.
  - destruct (nth_error (productItems pg) i) as [item|]; auto.
    apply Forall_cart_after_add; auto.
    + split; [|apply parsePrice_nonneg].
      apply quantity_succ_bounds; cbn [quantity new_line]; rewrite two_53; lia.
    + intros k line [Hq Hp]; split; [|exact Hp].
      apply quantity_succ_bounds; cbn [snd] in Hq; lia.
  - destruct (nth_error (productItems pg) i) as [item|]; auto.
    destruct (absent_or_zero _ _); auto.
    apply Forall_cart_after_remove; auto.
    intros k line [Hq Hp] Hne; split; [|exact Hp].
    cbn [quantity decrement snd] in *; lia.
  - destruct (checkoutDisabled pg); [auto | constructor].
Qed.

Lemma run_lines_from (evs : list Event) (pg : Page) :
  lines_from (map dataset (productItems pg)) (cart pg) ->
  lines_from (map dataset (productItems pg)) (cart (run evs pg)).
Proof.
  apply (run_cart_invariant format toLowerCase lines_from).
  clear; intros pg ev H; destruct ev as [i|i| |value]; simpl; auto.
  - destruct (nth_error (productItems pg) i) as [item|] eqn:Hi; auto.
    apply Forall_cart_after_add; [| |exact H].
    + exists (dataset item); split.
      * apply in_map, (nth_error_In _ _ Hi).
      * repeat split.
    + intros k line (d & Hd & Hl); exists d; split; [exact Hd | exact Hl].
  - destruct (nth_error (productItems pg) i) as [item|]; auto.
    destruct (absent_or_zero _ _); auto.
    apply Forall_cart_after_remove; [|exact H].
    intros k line (d & Hd & Hl) _; exists d; split; [exact Hd | exact Hl].
  - destruct (checkoutDisabled pg); [auto | constructor].
Qed.

End CartInvariants.

(** X4.  In every state reached from the empty store the cart holds no
    more lines than the catalog has products. *)
Theorem cart_no_longer_than_catalog
  (format : number -> string) (toLowerCase : string -> string)
  (evs : list Event) (pg : Page) :
  initial pg ->
  (List.length (cart (run format toLowerCase evs pg))
   <= List.length (productItems (run format toLowerCase evs pg)))%nat.
Proof.
  intros H.
  assert (Hnd : NoDup (CartObj.keys (cart (run format toLowerCase evs pg))))
    by (apply run_NoDup; rewrite H; constructor).
  assert (L : lines_from (map dataset (productItems pg))
                (cart (run format toLowerCase evs pg)))
    by (apply run_lines_from; rewrite H; constructor).
  rewrite <- (length_map fst (cart _)).
  rewrite <- (length_map dataset (productItems _)), run_datasets.
  rewrite <- (length_map (fun d => uniqueKey (bind d))).
  apply NoDup_incl_length; [exact Hnd|].
  intros k Hk; apply in_map_iff in Hk as ([k' line] & <- & Hin).
  unfold lines_from in L; rewrite Forall_forall in L.
  destruct (L _ Hin) as (d & Hd & Hkd & _); simpl in *.
  apply in_map_iff; exists d; split; [now symmetry | exact Hd].
Qed.

Lemma cart_no_longer_than_catalog_witness :
  (List.length (cart (run format_tag lower_ascii
                        [ClickAdd 0; ClickAdd 1; ClickAdd 2; ClickAdd 0; ClickAdd 1]
                        sample_page))
   <= 3)%nat.
Proof.
  apply (cart_no_longer_than_catalog format_tag lower_ascii
           [ClickAdd 0; ClickAdd 1; ClickAdd 2; ClickAdd 0; ClickAdd 1]
           sample_page).
  reflexivity.
Defined.

(** X5.  In every state reached from the empty store each line of the cart
    belongs to a product of the catalog: its key is that product's
    composite key, and its name, presentation, content and price are that
    product's attributes, the price being [parsePrice] of its price text.
    No handler rewrites them after the line is created. *)
Theorem cart_lines_carry_catalog_data
  (format : number -> string) (toLowerCase : string -> string)
  (evs : list Event) (pg : Page) :
  initial pg ->
  forall (k : string) (line : CartLine),
    In (k, line) (cart (run format toLowerCase evs pg)) ->
    exists item,
      In item (productItems (run format toLowerCase evs pg))
      /\ k = key_of item
      /\ name line = data_nombre (dataset item)
      /\ price line = parsePrice (price_arg (data_precio (dataset item)))
      /\ presentation line = or_empty (data_presentacion (dataset item))
      /\ content line = or_empty (data_contenido (dataset item)).
Proof.
  intros H k line Hin.
  assert (L : lines_from (map dataset (productItems pg))
                (cart (run format toLowerCase evs pg))).
  { apply run_lines_from; rewrite H; constructor. }
  unfold lines_from in L; rewrite Forall_forall in L.
  destruct (L _ Hin) as (d & Hd & Hk & Hn & Hp & Hpr & Hc); simpl in *.
  rewrite <- (run_datasets format toLowerCase evs pg) in Hd.
  apply in_map_iff in Hd as (item & <- & Hitem).
  exists item; repeat split; assumption.
Qed.

Lemma cart_lines_carry_catalog_data_witness :
  exists item,
    In item (productItems (run format_tag lower_ascii sample_events sample_page))
    /\ "7-500g" = key_of item
    /\ Num.of_decimal 123450 (-2)
       = parsePrice (price_arg (data_precio (dataset item))).
Proof.
  destruct (cart_lines_carry_catalog_data format_tag lower_ascii
              sample_events sample_page eq_refl "7-500g"
              {| name := "Chocolate"; price := Num.of_decimal 123450 (-2);
                 presentation := "500g"; content := ""; quantity := 2 |})
    as (item & Hi & Hk & _ & Hp & _).
  { vm_compute; left; reflexivity. }
  exists item; repeat split; assumption.
Defined.

(** X6.  In every state reached from the empty store the sum of price
    times quantity over the cart is plus zero, a positive finite number or
    plus infinity; so the total [updateSummary] computes is never [NaN]
    and never negative. *)
Theorem cart_total_is_never_nan
  (format : number -> string) (toLowerCase : string -> string)
  (evs : list Event) (pg : Page) :
  initial pg ->
  nonneg (cart_sum (cart (run format toLowerCase evs pg))) = true
  /\ Num.isNaN (r_total (render format (cart (run format toLowerCase evs pg))))
     = false.
Proof.
  intros H.
  assert (S : nonneg (cart_sum (cart (run format toLowerCase evs pg))) = true).
  { apply cart_sum_nonneg, run_sound; rewrite H; constructor. }
  split; [exact S|].
  rewrite render_total.
  destruct (cart_sum _) as [[]|[]| |[] m e]; try discriminate; reflexivity.
Qed.

Lemma cart_total_is_never_nan_witness :
  Num.isNaN (r_total (render format_tag
                        (cart (run format_tag lower_ascii sample_events sample_page))))
  = false.
Proof.
  apply (cart_total_is_never_nan format_tag lower_ascii sample_events sample_page).
  reflexivity.
Defined.

(** ** What a click does to the clicked product and to the others *)

Lemma get_In (k : string) (line : CartLine) (c : Cart) :
  CartObj.get k c = Some line -> In (k, line) c.
Proof.
  induction c as [|[k0 v0] c IH]; simpl; [discriminate|].
  destruct (String.eqb_spec k0 k) as [E|E].
  - intros [= ->]; left; now subst.
  - intros H; right; exact (IH H).
Qed.

Lemma quantity_in_positive (k : string) (c : Cart) :
  positive_quantities c ->
  0 <= quantity_in k c
  /\ (quantity_in k c <= 0 -> CartObj.get k c = None).
Proof.
  intros H; unfold quantity_in.
  destruct (CartObj.get k c) as [line|] eqn:G; [|split; [lia | reflexivity]].
  unfold positive_quantities in H; rewrite Forall_forall in H.
  specialize (H _ (get_In _ _ _ G)); simpl in H; split; lia.
Qed.

Lemma absent_or_zero_iff (k : string) (c : Cart) :
  absent_or_zero k c = true <-> quantity_in k c <= 0.
Proof.
  unfold absent_or_zero, quantity_in.
  destruct (CartObj.get k c); [apply Z.leb_le | split; [lia | reflexivity]].
Qed.

Lemma cart_after_add_quantity (b : Binding) (c : Cart) :
  quantity_in (uniqueKey b) (cart_after_add b c)
  = quantity_succ (quantity_in (uniqueKey b) c).
Proof.
  unfold quantity_in.
  pose proof (cart_after_add_cases b c) as E.
  destruct (CartObj.get (uniqueKey b) c) as [line|] eqn:G; rewrite E.
  - now rewrite get_modify, G.
  - now rewrite (get_last _ _ _ G).
Qed.

(** Adding a product and removing it again gives back the cart. *)
Lemma cart_after_add_remove (b : Binding) (c : Cart) :
  positive_quantities c ->
  quantity_in (uniqueKey b) c < 2 ^ 53 ->
  cart_after_remove (uniqueKey b) (cart_after_add b c) = c.
Proof.
  intros Hpos Hq; unfold quantity_in in Hq.
  pose proof (cart_after_add_cases b c) as E.
  destruct (CartObj.get (uniqueKey b) c) as [line|] eqn:G; rewrite E; clear E;
    unfold cart_after_remove.
  - rewrite modify_modify, get_modify, G; simpl.
    unfold positive_quantities in Hpos; rewrite Forall_forall in Hpos.
    specialize (Hpos _ (get_In _ _ _ G)); simpl in Hpos.
    assert (Q : quantity_succ (quantity line) - 1 = quantity line).
    { unfold quantity_succ.
      destruct (Z.ltb_spec (quantity line) (2 ^ 53)); lia. }
    rewrite Q.
    destruct (Z.eqb_spec (quantity line) 0); [lia|].
    apply (modify_same _ _ line); [exact G|].
    destruct line; unfold decrement, increment; simpl in *; now rewrite Q.
  - rewrite (modify_last _ _ _ _ G), (get_last _ _ _ G).
    cbn [quantity decrement increment new_line].
    change (quantity_succ 0 - 1 =? 0) with true; cbv iota.
    apply delete_last, G.
Qed.

Section ClickFacts.

Variable format : number -> string.
Variable toLowerCase : string -> string.

Local Abbreviation run := (run format toLowerCase).

(** X7.  An add click on a product raises the quantity the cart holds for
    its key by one step, from 0 if it had no line, and shows the new
    quantity in that product's indicator.  A new key goes to the end of
    the cart, an existing one keeps its place; the lines of all other keys
    and all other products' indicators are untouched. *)
Theorem add_click_effect (i : nat) (pg : Page) (item : ProductItem) :
  nth_error (productItems pg) i = Some item ->
  let k := key_of item in
  let pg' := addButton_click format i pg in
  quantity_in k (cart pg') = quantity_succ (quantity_in k (cart pg))
  /\ (forall k', k' <> k -> CartObj.get k' (cart pg') = CartObj.get k' (cart pg))
  /\ CartObj.keys (cart pg')
     = match CartObj.get k (cart pg) with
       | Some _ => CartObj.keys (cart pg)
       | None => (CartObj.keys (cart pg) ++ [k])%list
       end
  /\ nth_error (productItems pg') i
     = Some (set_quantityDisplay
               (Num.to_string_int (quantity_succ (quantity_in k (cart pg)))) item)
  /\ (forall j, j <> i ->
        nth_error (productItems pg') j = nth_error (productItems pg) j).
Proof.
  intros Hi k pg'; subst pg'.
  rewrite (addButton_click_result format i pg item Hi); simpl.
  unfold k, key_of; rewrite cart_after_add_quantity.
  repeat split.
  - intros k' N; apply cart_after_add_other, N.
  - apply cart_after_add_keys.
  - now rewrite nth_error_update_nth, Hi.
  - intros j N; apply nth_error_update_nth_other, N.
Qed.

(** X8.  In a state reached from the empty store a remove click on a
    product lowers the quantity the cart holds for its key by one, never
    below 0; the line is gone exactly when the quantity was 0 or 1; when
    the click acts, the product's indicator shows the new quantity; the
    lines of all other keys and all other products' indicators are
    untouched. *)
Theorem remove_click_effect
  (evs : list Event) (pg0 : Page) (i : nat) (item : ProductItem) :
  initial pg0 ->
  let pg := run evs pg0 in
  nth_error (productItems pg) i = Some item ->
  let k := key_of item in
  let pg' := removeButton_click format i pg in
  quantity_in k (cart pg') = Z.max 0 (quantity_in k (cart pg) - 1)
  /\ (CartObj.get k (cart pg') = None <-> quantity_in k (cart pg) <= 1)
  /\ (forall k', k' <> k -> CartObj.get k' (cart pg') = CartObj.get k' (cart pg))
  /\ (1 <= quantity_in k (cart pg) ->
      nth_error (productItems pg') i
      = Some (set_quantityDisplay
                (Num.to_string_int (quantity_in k (cart pg) - 1)) item))
  /\ (forall j, j <> i ->
        nth_error (productItems pg') j = nth_error (productItems pg) j).
Proof.
  intros H0 pg Hi k pg'.
  assert (Hpos : positive_quantities (cart pg))
    by (apply run_positive; rewrite H0; constructor).
  assert (Hnd : NoDup (CartObj.keys (cart pg)))
    by (apply run_NoDup; rewrite H0; constructor).
  destruct (quantity_in_positive k _ Hpos) as [Hq0 Hnone].
  destruct (absent_or_zero k (cart pg)) eqn:Hz.
  - (* the click does nothing *)
    subst pg'; rewrite (removeButton_click_idle format i pg item Hi Hz).
    apply absent_or_zero_iff in Hz.
    repeat split; try lia; auto.
  - (* the click acts *)
    assert (Hq : 1 <= quantity_in k (cart pg)).
    { destruct (Z.le_gt_cases (quantity_in k (cart pg)) 0) as [L|G]; [|lia].
      apply absent_or_zero_iff in L; congruence. }
    subst pg'; rewrite (removeButton_click_result format i pg item Hi Hz); simpl.
    fold k; rewrite (cart_after_remove_quantity k _ Hnd Hq).
    assert (Hpos' : positive_quantities (cart_after_remove k (cart pg)))
      by (apply cart_after_remove_positive, Hpos).
    destruct (quantity_in_positive k _ Hpos') as [_ Hnone'].
    rewrite (cart_after_remove_quantity k _ Hnd Hq) in Hnone'.
    repeat split.
    + lia.
    + intros G.
      pose proof (cart_after_remove_quantity k _ Hnd Hq) as E.
      unfold quantity_in in E at 1; rewrite G in E; lia.
    + intros L; apply Hnone'; lia.
    + intros k' N; apply cart_after_remove_other, N.
    + intros _; now rewrite nth_error_update_nth, Hi.
    + intros j N; apply nth_error_update_nth_other, N.
Qed.

(** X9.  In a state reached from the empty store, an add click on a product
    followed by a remove click on the same product gives back the cart as
    it was, lines and order, as long as the quantity was below [2 ^ 53]. *)
Theorem add_then_remove_restores_cart
  (evs : list Event) (pg0 : Page) (i : nat) (item : ProductItem) :
  initial pg0 ->
  let pg := run evs pg0 in
  nth_error (productItems pg) i = Some item ->
  quantity_in (key_of item) (cart pg) < 2 ^ 53 ->
  cart (removeButton_click format i (addButton_click format i pg)) = cart pg.
Proof.
  intros H0 pg Hi Hq.
  assert (Hpos : positive_quantities (cart pg))
    by (apply run_positive; rewrite H0; constructor).
  destruct (quantity_in_positive (key_of item) _ Hpos) as [Hq0 _].
  rewrite (addButton_click_result format i pg item Hi).
  set (c1 := cart_after_add (bind (dataset item)) (cart pg)).
  set (item1 := set_quantityDisplay
                  (Num.to_string_int (quantity_in (key_of item) c1)) item).
  set (pg1 := updateSummary format _).
  assert (Hi1 : nth_error (productItems pg1) i = Some item1).
  { subst pg1; simpl; now rewrite nth_error_update_nth, Hi. }
  assert (Hz : absent_or_zero (key_of item1) (cart pg1) = false).
  { destruct (absent_or_zero (key_of item1) (cart pg1)) eqn:Z; [|reflexivity].
    apply absent_or_zero_iff in Z.
    change (quantity_in (key_of item) c1 <= 0) in Z.
    unfold c1, key_of in Z; rewrite cart_after_add_quantity in Z.
    pose proof (quantity_succ_positive _ Hq0); unfold key_of in *; lia. }
  rewrite (removeButton_click_result format i pg1 item1 Hi1 Hz); simpl.
  apply cart_after_add_remove; assumption.
Qed.

End ClickFacts.

Lemma add_click_effect_witness :
  quantity_in "7-500g" (cart (addButton_click format_tag 0 sample_page)) = 1
  /\ CartObj.keys (cart (addButton_click format_tag 0 sample_page)) = ["7-500g"].
Proof.
  destruct (add_click_effect format_tag 0 sample_page
              (sample_item "7" "Chocolate" (Some "500g") "$1.234,50") eq_refl)
    as (Hq & _ & Hk & _).
  split; [exact Hq | exact Hk].
Defined.

Lemma remove_click_effect_witness :
  let pg := run format_tag lower_ascii sample_events sample_page in
  quantity_in "7-500g" (cart (removeButton_click format_tag 0 pg)) = 1
  /\ quantity_in "9-" (cart (removeButton_click format_tag 2 pg)) = 0.
Proof.
  intros pg; split.
  - destruct (remove_click_effect format_tag lower_ascii sample_events sample_page
                0 (set_quantityDisplay "2"
                     (sample_item "7" "Chocolate" (Some "500g") "$1.234,50"))
                eq_refl eq_refl) as (Hq & _).
    exact Hq.
  - destruct (remove_click_effect format_tag lower_ascii sample_events sample_page
                2 (set_hidden true
                     (sample_item "9" "Leche" None "0,10"))
                eq_refl eq_refl) as (Hq & _).
    exact Hq.
Defined.

Lemma add_then_remove_restores_cart_witness :
  let pg := run format_tag lower_ascii sample_events sample_page in
  cart (removeButton_click format_tag 1 (addButton_click format_tag 1 pg)) = cart pg.
Proof.
  intros pg.
  apply (add_then_remove_restores_cart format_tag lower_ascii
           sample_events sample_page 1
           (sample_item "7" "Chocolate" (Some "1kg") "$2.000,00"));
    [reflexivity | reflexivity | vm_compute; reflexivity].
Defined.

(** ** The indicators, the summary list, the alert *)

Lemma keys_distinct (items : list ProductItem) (i j : nat) (a b : ProductItem) :
  NoDup (map key_of items) ->
  nth_error items i = Some a -> nth_error items j = Some b ->
  j <> i -> key_of b <> key_of a.
Proof.
  intros Hnd Ha Hb N E.
  rewrite NoDup_nth_error in Hnd.
  apply N; symmetry; apply Hnd.
  - rewrite length_map; apply nth_error_Some; congruence.
  - now rewrite !nth_error_map, Ha, Hb; simpl; rewrite E.
Qed.

Lemma map_key_of (items : list ProductItem) :
  map key_of items = map (fun d => uniqueKey (bind d)) (map dataset items).
Proof. now rewrite map_map. Qed.



Section PageInvariants.

Variable format : number -> string.
Variable toLowerCase : string -> string.

Local Abbreviation step := (step format toLowerCase).
Local Abbreviation run := (run format toLowerCase).

Lemma step_displays_agree (pg : Page) (ev : Event) :
  NoDup (map key_of (productItems pg)) ->
  displays_agree pg -> displays_agree (step pg ev).
Proof.
  intros Hnd H; destruct ev as [i|i| |value]; simpl.
  - destruct (nth_error (productItems pg) i) as [item|] eqn:Hi;
      [|unfold addButton_click; rewrite Hi; exact H].
    rewrite (addButton_click_result format i pg item Hi).
    intros j it; simpl; intros Hj.
    destruct (Nat.eq_dec j i) as [->|N].
    + rewrite nth_error_update_nth, Hi in Hj; injection Hj as <-; reflexivity.
    + rewrite (nth_error_update_nth_other _ _ _ _ N) in Hj.
      rewrite (H j it Hj); unfold quantity_in.
      rewrite cart_after_add_other; [reflexivity|].
      apply (keys_distinct _ i j item it Hnd Hi Hj N).
  - destruct (nth_error (productItems pg) i) as [item|] eqn:Hi;
      [|unfold removeButton_click; rewrite Hi; exact H].
    destruct (absent_or_zero (key_of item) (cart pg)) eqn:Hz;
      [rewrite (removeButton_click_idle format i pg item Hi Hz); exact H|].
    rewrite (removeButton_click_result format i pg item Hi Hz).
    intros j it; simpl; intros Hj.
    destruct (Nat.eq_dec j i) as [->|N].
    + rewrite nth_error_update_nth, Hi in Hj; injection Hj as <-; reflexivity.
    + rewrite (nth_error_update_nth_other _ _ _ _ N) in Hj.
      rewrite (H j it Hj); unfold quantity_in.
      rewrite cart_after_remove_other; [reflexivity|].
      apply (keys_distinct _ i j item it Hnd Hi Hj N).
  - destruct (checkoutDisabled pg); [exact H|].
    intros j it; simpl; rewrite delete_all_keys; simpl.
    rewrite nth_error_map.
    destruct (nth_error (productItems pg) j); [|discriminate].
    intros [= <-]; reflexivity.
  - intros j it; simpl; rewrite nth_error_map.
    destruct (nth_error (productItems pg) j) as [it0|] eqn:Hj; [|discriminate].
    intros [= <-].
    destruct (Str.includes _ _); exact (H j it0 Hj).
Qed.

(** X10.  When the products of the catalog have pairwise different
    composite keys and every indicator starts at ["0"], then in every
    state reached from the empty store each product's indicator shows the
    quantity the cart holds for that product, ["0"] when it holds none. *)
Theorem indicators_show_cart_quantities (evs : list Event) (pg : Page) :
  initial pg ->
  NoDup (map key_of (productItems pg)) ->
  Forall (fun item => quantityDisplay item = "0") (productItems pg) ->
  displays_agree (run evs pg).
Proof.
  intros H0 Hnd Hz.
  assert (Hstart : displays_agree pg).
  { intros j item Hj; rewrite Forall_forall in Hz.
    rewrite (Hz item (nth_error_In _ _ Hj)); unfold quantity_in.
    rewrite H0; reflexivity. }
  clear H0 Hz; revert pg Hnd Hstart.
  induction evs as [|ev evs IH]; intros pg Hnd Hstart; simpl; [exact Hstart|].
  apply IH.
  - now rewrite map_key_of, step_datasets, <- map_key_of.
  - apply step_displays_agree; assumption.
Qed.


(** X12.  A checkout click in a state reached from the empty store whose
    cart is not empty shows exactly one alert; its text is the fixed
    greeting followed by the whole text of the total region, so the word
    ["Total: "] occurs twice before the formatted sum. *)
Theorem checkout_alert_text (evs : list Event) (pg : Page) :
  initial pg ->
  cart (run evs pg) <> [] ->
  alerts (step (run evs pg) ClickCheckout)
  = (alerts (run evs pg)
       ++ [("¡Compra finalizada! Total: Total: "
              ++ format (cart_sum (cart (run evs pg))))%string])%list.
Proof.
  intros H Hne; simpl.
  rewrite (run_nonempty_enabled format toLowerCase evs pg H Hne).
  destruct (run_summary format toLowerCase evs pg (or_introl H)) as [He|Hf];
    [contradiction|].
  destruct Hf as (_ & Ht & _).
  destruct (render_nonempty format _ Hne) as [Hr _].
  simpl; rewrite Ht, Hr; reflexivity.
Qed.

(** X13.  No handler adds, removes or reorders products or rewrites their
    attributes; only the search handler changes which products are hidden;
    only the checkout handler shows an alert; and only an add, an acting
    remove or a checkout changes the cart. *)
Theorem handlers_touch_only_their_own (pg : Page) (ev : Event) :
  map dataset (productItems (step pg ev)) = map dataset (productItems pg)
  /\ match ev with
     | InputSearch _ =>
         cart (step pg ev) = cart pg
         /\ alerts (step pg ev) = alerts pg
         /\ map quantityDisplay (productItems (step pg ev))
            = map quantityDisplay (productItems pg)
     | ClickCheckout =>
         map hidden (productItems (step pg ev)) = map hidden (productItems pg)
     | ClickAdd _ | ClickRemove _ =>
         map hidden (productItems (step pg ev)) = map hidden (productItems pg)
         /\ alerts (step pg ev) = alerts pg
     end.
Proof.
  split; [apply step_datasets|].
  destruct ev as [i|i| |value]; simpl.
  - destruct (nth_error (productItems pg) i) as [item|] eqn:Hi.
    + rewrite (addButton_click_result format i pg item Hi); simpl.
      split; [now apply map_update_nth | reflexivity].
    + unfold addButton_click; rewrite Hi; auto.
  - destruct (nth_error (productItems pg) i) as [item|] eqn:Hi.
    + destruct (absent_or_zero (key_of item) (cart pg)) eqn:Hz.
      * rewrite (removeButton_click_idle format i pg item Hi Hz); auto.
      * rewrite (removeButton_click_result format i pg item Hi Hz); simpl.
        split; [now apply map_update_nth | reflexivity].
    + unfold removeButton_click; rewrite Hi; auto.
  - destruct (checkoutDisabled pg); [reflexivity|]; simpl.
    rewrite map_map; reflexivity.
  - repeat split.
    rewrite map_map; apply map_ext; intros item.
    destruct (Str.includes _ _); reflexivity.
Qed.

End PageInvariants.

Lemma indicators_show_cart_quantities_witness :
  displays_agree (run format_tag lower_ascii sample_events sample_page).
Proof.
  apply (indicators_show_cart_quantities format_tag lower_ascii
           sample_events sample_page).
  - reflexivity.
  - repeat constructor; simpl; intuition discriminate.
  - repeat constructor.
Defined.

(** With two products under one key the hypothesis of X10 fails, and so
    does its conclusion: the second indicator stays at 0. *)
Example indicator_stale_under_shared_key :
  let twin := sample_item "7" "Chocolate" (Some "500g") "$1.234,50" in
  let pg := addButton_click format_tag 0
              (with_cart [] [twin; twin] sample_page) in
  quantity_in (key_of twin) (cart pg) = 1
  /\ map quantityDisplay (productItems pg) = ["1"; "0"].
Proof. vm_compute; split; reflexivity. Qed.


Lemma checkout_alert_text_witness :
  alerts (step format_tag lower_ascii
            (run format_tag lower_ascii sample_events sample_page) ClickCheckout)
  = ["¡Compra finalizada! Total: Total: finite"].
Proof.
  rewrite (checkout_alert_text format_tag lower_ascii
             sample_events sample_page eq_refl);
    [reflexivity | discriminate].
Defined.

(** ** The search box, further *)

Lemma includes_empty (s : string) : Str.includes s "" = true.
Proof. destruct s; reflexivity. Qed.

(** X14.  A query whose lower-cased form is empty hides nothing: after the
    input handler has run, no product carries the class [hidden]. *)
Theorem empty_query_shows_everything
  (toLowerCase : string -> string) (value : string) (pg : Page) :
  toLowerCase value = "" ->
  map hidden (productItems (searchInput_input toLowerCase value pg))
  = map (fun _ => false) (productItems pg).
Proof.
  intros H; unfold searchInput_input; simpl.
  rewrite map_map, H; apply map_ext; intros item.
  now rewrite includes_empty.
Qed.

Lemma empty_query_shows_everything_witness :
  map hidden
    (productItems
       (searchInput_input lower_ascii ""
          (searchInput_input lower_ascii "leche" sample_page)))
  = [false; false; false].
Proof.
  apply (empty_query_shows_everything lower_ascii ""
           (searchInput_input lower_ascii "leche" sample_page)).
  reflexivity.
Defined.

(** X15.  The filter keeps no memory: running the input handler with one
    query and then with another leaves the page exactly as running it with
    the second query alone. *)
Theorem last_query_wins
  (toLowerCase : string -> string) (first second : string) (pg : Page) :
  searchInput_input toLowerCase second (searchInput_input toLowerCase first pg)
  = searchInput_input toLowerCase second pg.
Proof.
  unfold searchInput_input, with_cart; simpl; f_equal.
  rewrite map_map; apply map_ext; intros item.
  destruct (Str.includes (toLowerCase (data_nombre (dataset item)))
                         (toLowerCase first));
    simpl; destruct (Str.includes _ _); reflexivity.
Qed.

(** ** The checkout button *)

Lemma render_disabled (format : number -> string) (c : Cart) :
  r_disabled (render format c) = isEmpty c.
Proof.
  unfold render; destruct c as [|e c]; [reflexivity|].
  change (isEmpty (e :: c)) with false; cbv iota.
  destruct (summary_loop format (e :: c) (Num.zero, [])); reflexivity.
Qed.

(** X16.  When the markup starts with the checkout button disabled, then
    in every state reached from the empty store the button is disabled
    exactly when the cart is empty. *)
Theorem checkout_enabled_iff_cart_nonempty
  (format : number -> string) (toLowerCase : string -> string)
  (evs : list Event) (pg : Page) :
  initial pg ->
  checkoutDisabled pg = true ->
  checkoutDisabled (run format toLowerCase evs pg)
  = isEmpty (cart (run format toLowerCase evs pg)).
Proof.
  intros H0 Hd.
  assert (Hstart : checkoutDisabled pg = isEmpty (cart pg))
    by (rewrite H0, Hd; reflexivity).
  clear H0 Hd; revert pg Hstart.
  induction evs as [|ev evs IH]; intros pg Hstart; simpl; [exact Hstart|].
  apply IH.
  destruct (step_summary format toLowerCase pg ev) as [[Hc Hs]|Hf].
  - unfold summary_of in Hs; injection Hs as _ _ _ Hdis.
    now rewrite Hdis, Hc.
  - destruct Hf as (_ & _ & Hdis & _); rewrite Hdis; apply render_disabled.
Qed.

Lemma checkout_enabled_iff_cart_nonempty_witness :
  checkoutDisabled
    (run format_tag lower_ascii [ClickAdd 0; ClickRemove 0] sample_page)
  = true.
Proof.
  rewrite (checkout_enabled_iff_cart_nonempty format_tag lower_ascii
             [ClickAdd 0; ClickRemove 0] sample_page eq_refl eq_refl).
  reflexivity.
Defined.
